(** * School ERP over a spreadsheet row store: a shallow embedding

    The development follows the five source files of the backend:
    - [models.py]: the record kinds and their identifier factories;
    - [security.py]: the credential vault and the session issuer;
    - [database.py]: the local user directory;
    - [sheets_api.py]: the adapter over the remote row store;
    - [main.py]: the record mapper, provisioning and the CRUD factory.

    Python dictionaries whose iteration order matters are association
    lists with dictionary semantics ([dict_set], [dict_get]); model
    instances and the user directory are finite maps.  Stateful code is
    written in a state-and-exception monad over a [world] that holds the
    local directory, the remote documents, the one-time login slot and
    the log of the remote calls issued so far. *)

From Stdlib Require Import ZArith NArith Ascii String List Bool Lia.
From stdpp Require Import base option list strings pretty gmap fin_maps.

Local Open Scope string_scope.
Local Open Scope Z_scope.

(** ** Python strings (ASCII fragment) *)

Fixpoint string_map (f : ascii → ascii) (s : string) : string :=
  match s with
  | EmptyString => EmptyString
  | String a r => String (f a) (string_map f r)
  end.

Fixpoint string_forallb (p : ascii → bool) (s : string) : bool :=
  match s with
  | EmptyString => true
  | String a r => p a && string_forallb p r
  end.

Fixpoint string_take (n : nat) (s : string) : string :=
  match n, s with
  | O, _ => EmptyString
  | S _, EmptyString => EmptyString
  | S k, String a r => String a (string_take k r)
  end.

Fixpoint string_drop (n : nat) (s : string) : string :=
  match n, s with
  | O, _ => s
  | S _, EmptyString => EmptyString
  | S k, String _ r => string_drop k r
  end.

Definition ascii_between (lo hi a : ascii) : bool :=
  (N.leb (N_of_ascii lo) (N_of_ascii a)) && (N.leb (N_of_ascii a) (N_of_ascii hi)).

(** [str.lower()] and [str.upper()] on one character. *)
Definition ascii_lower (a : ascii) : ascii :=
  if ascii_between "A" "Z" a then ascii_of_N (N_of_ascii a + 32) else a.

Definition ascii_upper (a : ascii) : ascii :=
  if ascii_between "a" "z" a then ascii_of_N (N_of_ascii a - 32) else a.

Definition lower (s : string) : string := string_map ascii_lower s.
Definition upper (s : string) : string := string_map ascii_upper s.

(** [s.replace(old, new)] for one-character [old] and [new]. *)
Definition replace (old new : ascii) (s : string) : string :=
  string_map (λ a, if Ascii.eqb a old then new else a) s.

(** [s.zfill(n)]: left padding with zeros up to width [n]. *)
Definition zfill (n : nat) (s : string) : string :=
  string_of_list_ascii (repeat "0"%char (n - String.length s)) +:+ s.

(** ** Values held by model fields *)

(** A [datetime.date]. *)
Record date := Date { year : Z; month : Z; day : Z }.

(** A Python [float], kept as its IEEE-754 binary64 bit pattern. *)
Definition float64 := Z.

Inductive value :=
  | VNone
  | VStr (s : string)
  | VInt (z : Z)
  | VFloat (f : float64)
  | VDate (d : date).

Global Instance date_eq_dec : EqDecision date.
Proof. solve_decision. Defined.

Global Instance value_eq_dec : EqDecision value.
Proof. solve_decision. Defined.

(** [date.isoformat()]: [YYYY-MM-DD]. *)
Definition isoformat (d : date) : string :=
  zfill 4 (pretty (year d)) +:+ "-" +:+ zfill 2 (pretty (month d)) +:+ "-"
    +:+ zfill 2 (pretty (day d)).

(** ** What the program takes from its libraries and collaborators

    Text conversions of pydantic and of the float type, the symmetric
    cipher, the client-secrets file and the behaviour of the remote
    service are not code of this repository; they are the fields of an
    environment that every definition below takes as a parameter. *)
Inductive ftype := TStr | TInt | TFloat | TDate.

Record env := Env {
  (** pydantic's lax conversion of an input that is not [None] into a
      field of type [int], [float] or [date] (text cells, JSON numbers) *)
  coerce : ftype → value → option value;
  (** [str(x)] for a float *)
  repr_float : float64 → string;
  (** Fernet under the process-wide key; decryption can fail *)
  fernet_encrypt : string → string;
  fernet_decrypt : string → option string;
  (** whether [client_secret.json] can be read *)
  client_secrets_present : bool;
  (** whether the remote call issued after [n] earlier ones succeeds *)
  reachable : nat → bool;
  (** the identifier the service gives to the document created after
      [n] earlier remote calls *)
  new_spreadsheet_id : nat → string;
  (** the sixteen bytes [uuid.uuid4()] reads from the system, as a number *)
  urandom16 : N;
  (** [date.today()] *)
  today : date;
  (** [datetime.now(timezone.utc)], in seconds since the epoch *)
  utcnow : Z;
  (** the session-signing secret read from the process environment *)
  JWT_SECRET_KEY : string;
}.

(** ** Python dictionaries

    Insertion-ordered, one entry per key: assigning to a key that is
    present replaces its value in place. *)
Section PyDict.
Context {V : Type}.

Definition pydict := list (string * V).

Fixpoint dict_get (k : string) (d : pydict) : option V :=
  match d with
  | [] => None
  | (k', v) :: r => if decide (k' = k) then Some v else dict_get k r
  end.

Fixpoint dict_set (k : string) (v : V) (d : pydict) : pydict :=
  match d with
  | [] => [(k, v)]
  | (k', v') :: r =>
      if decide (k' = k) then (k, v) :: r else (k', v') :: dict_set k v r
  end.

(** [dict(pairs)] and the dictionary comprehension over [pairs]. *)
Definition dict_of (pairs : list (string * V)) : pydict :=
  fold_left (λ d kv, dict_set kv.1 kv.2 d) pairs [].
End PyDict.
Arguments pydict V : clear implicits.

(** ** models.py *)

(** [uuid.uuid4()]: 128 random bits with the version and variant bits
    forced, and [.hex], its 32 lower-case hexadecimal digits. *)
Definition uuid4 (E : env) : N :=
  let i := (urandom16 E mod 2 ^ 128)%N in
  let i := N.ldiff i (N.shiftl 0xc000 48) in
  let i := N.lor i (N.shiftl 0x8000 48) in
  let i := N.ldiff i (N.shiftl 0xf000 64) in
  N.lor i (N.shiftl 4 76).

Definition hex_digit (d : N) : ascii :=
  match d with
  | 0 => "0" | 1 => "1" | 2 => "2" | 3 => "3" | 4 => "4" | 5 => "5"
  | 6 => "6" | 7 => "7" | 8 => "8" | 9 => "9" | 10 => "a" | 11 => "b"
  | 12 => "c" | 13 => "d" | 14 => "e" | _ => "f"
  end%N%char.

Fixpoint hex_go (k : nat) (n : N) (acc : string) : string :=
  match k with
  | O => acc
  | S k' => hex_go k' (n / 16)%N (String (hex_digit (n mod 16)%N) acc)
  end.

Definition uuid_hex (u : N) : string := hex_go 32 u "".

(** What a field falls back on when the input leaves it out. *)
Inductive fdefault :=
  | Required
  | Default (v : value)
  (** [Field(default_factory=lambda: f"{prefix}-{uuid.uuid4().hex[:n].upper()}")] *)
  | IdFactory (prefix : string) (n : nat)
  (** [Field(default_factory=date.today)] *)
  | TodayFactory.

Record field := Field {
  fname : string;
  ftyp : ftype;
  optional : bool;
  fdef : fdefault;
}.

Global Instance ftype_eq_dec : EqDecision ftype.
Proof. solve_decision. Defined.

Global Instance fdefault_eq_dec : EqDecision fdefault.
Proof. solve_decision. Defined.

Global Instance field_eq_dec : EqDecision field.
Proof. solve_decision. Defined.

(** A model class is the list of its fields, base class first. *)
Definition model := list field.

Definition req (n : string) (t : ftype) : field := Field n t false Required.
Definition opt (n : string) (t : ftype) : field := Field n t true (Default VNone).

Definition AdmissionBase : model :=
  [ req "student_name" TStr; req "date_of_birth" TDate; req "gender" TStr;
    req "contact_number" TStr; req "email" TStr; req "address" TStr;
    req "course_applied" TStr; req "department" TStr;
    req "admission_status" TStr; req "parent_guardian_name" TStr;
    req "parent_guardian_contact" TStr; req "nationality" TStr;
    req "category" TStr; opt "remarks" TStr ].

Definition AdmissionCreate : model :=
  (AdmissionBase ++ [ Field "admission_id" TStr false (IdFactory "ADM" 6);
    Field "admission_date" TDate false TodayFactory ])%list.

Definition Admission : model :=
  (AdmissionBase ++ [ req "admission_id" TStr; req "admission_date" TDate ])%list.

Definition AdmissionUpdate : model :=
  [ opt "student_name" TStr; opt "date_of_birth" TDate; opt "gender" TStr;
    opt "contact_number" TStr; opt "email" TStr; opt "address" TStr;
    opt "course_applied" TStr; opt "department" TStr;
    opt "admission_status" TStr; opt "parent_guardian_name" TStr;
    opt "parent_guardian_contact" TStr; opt "nationality" TStr;
    opt "category" TStr; opt "remarks" TStr ].

Definition BookBase : model :=
  [ req "title" TStr; req "author" TStr; req "genre" TStr;
    req "publisher" TStr; req "edition_year" TStr; opt "isbn" TStr;
    req "shelf_location" TStr;
    Field "availability_status" TStr false (Default (VStr "Available"));
    opt "issued_to" TStr; opt "issue_date" TDate; opt "return_date" TDate;
    Field "fine_rate" TFloat false (Default (VFloat 0));
    Field "fine_accrued" TFloat false (Default (VFloat 0)) ].

Definition BookCreate : model :=
  (BookBase ++ [ Field "book_id" TStr false (IdFactory "BK" 8) ])%list.

Definition Book : model := (BookBase ++ [ req "book_id" TStr ])%list.

Definition BookUpdate : model :=
  [ opt "title" TStr; opt "author" TStr; opt "genre" TStr;
    opt "publisher" TStr; opt "edition_year" TStr; opt "isbn" TStr;
    opt "shelf_location" TStr; opt "availability_status" TStr;
    opt "issued_to" TStr; opt "issue_date" TDate; opt "return_date" TDate;
    opt "fine_rate" TFloat; opt "fine_accrued" TFloat ].

Definition HostelOccupancyBase : model :=
  [ req "hostel_id" TStr; req "room_type" TStr; req "fee_status" TStr;
    req "room_number" TStr; req "occupied_beds" TInt; req "vacant_beds" TInt;
    req "student_id" TStr; req "student_name" TStr; req "check_in_date" TDate;
    opt "check_out_date" TDate; req "status" TStr ].

Definition HostelOccupancyCreate : model :=
  (HostelOccupancyBase ++ [ Field "occupancy_id" TStr false (IdFactory "HOC" 6) ])%list.

Definition HostelOccupancy : model :=
  (HostelOccupancyBase ++ [ req "occupancy_id" TStr ])%list.

Definition HostelOccupancyUpdate : model :=
  [ opt "hostel_id" TStr; opt "room_type" TStr; opt "fee_status" TStr;
    opt "room_number" TStr; opt "occupied_beds" TInt; opt "vacant_beds" TInt;
    opt "student_id" TStr; opt "student_name" TStr; opt "check_in_date" TDate;
    opt "check_out_date" TDate; opt "status" TStr ].

Definition FeeReceiptBase : model :=
  [ req "student_id" TStr; req "student_name" TStr; req "course" TStr;
    req "semester_year" TStr; req "fee_type" TStr; req "amount" TFloat;
    req "payment_mode" TStr; opt "transaction_id" TStr; req "status" TStr;
    opt "remarks" TStr ].

Definition FeeReceiptCreate : model :=
  (FeeReceiptBase ++ [ Field "receipt_id" TStr false (IdFactory "RCPT" 8);
    Field "payment_date" TDate false TodayFactory ])%list.

Definition FeeReceipt : model :=
  (FeeReceiptBase ++ [ req "receipt_id" TStr; req "payment_date" TDate ])%list.

Definition FeeReceiptUpdate : model :=
  [ opt "student_id" TStr; opt "student_name" TStr; opt "course" TStr;
    opt "semester_year" TStr; opt "fee_type" TStr; opt "amount" TFloat;
    opt "payment_mode" TStr; opt "transaction_id" TStr; opt "status" TStr;
    opt "remarks" TStr ].

Definition AppUserBase : model :=
  [ req "username" TStr; req "role" TStr; req "password" TStr ].

Definition AppUserCreate : model :=
  (AppUserBase ++ [ Field "user_id" TStr false (IdFactory "USR" 6) ])%list.

Definition AppUser : model := (AppUserBase ++ [ req "user_id" TStr ])%list.

Definition AppUserUpdate : model :=
  [ opt "username" TStr; opt "role" TStr; opt "password" TStr ].

(** ** Exceptions and results *)

Inductive exn :=
  | HTTPException (status_code : Z) (detail : string)
  (** an [HTTPException] whose detail is [detail] followed by the text of
      [cause], the exception that a handler formatted into it *)
  | HTTPExceptionFrom (status_code : Z) (detail : string) (cause : exn)
  | ValueError (msg : string)
  | KeyError (key : string)
  | AttributeError
  | HttpError             (* googleapiclient.errors.HttpError *)
  | InvalidToken          (* cryptography.fernet.InvalidToken *)
  | FileNotFoundError
  | IntegrityError        (* sqlite3.IntegrityError *)
  | ValidationError.      (* pydantic.ValidationError *)

(** A computation that returns or raises. *)
Definition res (A : Type) : Type := exn + A.

(** ** pydantic: instances, validation, dumping, copying *)

(** A model instance: its attribute dictionary. *)
Abbreviation instance := (gmap string value).

(** The value of the identifier factory of [models.py]. *)
Definition id_factory (E : env) (prefix : string) (n : nat) : string :=
  prefix +:+ "-" +:+ upper (string_take n (uuid_hex (uuid4 E))).

Definition default_value (E : env) (f : field) : option value :=
  match fdef f with
  | Required => None
  | Default v => Some v
  | IdFactory prefix n => Some (VStr (id_factory E prefix n))
  | TodayFactory => Some (VDate (today E))
  end.

(** Validation of one input: [None] only into an optional field, only
    text into a [str] field, everything else by the lax conversions. *)
Definition validate_field (E : env) (f : field) (v : value) : option value :=
  match v with
  | VNone => if optional f then Some VNone else None
  | _ =>
      match ftyp f with
      | TStr => match v with VStr _ => Some v | _ => None end
      | t => coerce E t v
      end
  end.

Definition field_value (E : env) (data : pydict value) (f : field) : option value :=
  match dict_get (fname f) data with
  | Some v => validate_field E f v
  | None => default_value E f
  end.

(** Calling the class on keyword arguments: every field validated or defaulted, keys that name no
    field ignored, [ValidationError] as soon as one field fails. *)
Fixpoint model_validate (E : env) (cls : model) (data : pydict value) : res instance :=
  match cls with
  | [] => inr ∅
  | f :: rest =>
      match field_value E data f, model_validate E rest data with
      | Some v, inr m => inr (<[fname f := v]> m)
      | _, _ => inl ValidationError
      end
  end.

(** [model_dump(mode='json')] turns dates into ISO text. *)
Definition to_jsonable (v : value) : value :=
  match v with
  | VDate d => VStr (isoformat d)
  | _ => v
  end.

Definition model_dump_json (inst : instance) : instance := to_jsonable <$> inst.

(** [str(x)] on a dumped value. *)
Definition py_str (E : env) (v : value) : string :=
  match v with
  | VNone => "None"
  | VStr s => s
  | VInt z => pretty z
  | VFloat f => repr_float E f
  | VDate d => isoformat d
  end.

(** An instance of an update model: its attributes (unset ones hold their
    default [None]) and [model_fields_set], the fields the payload named. *)
Record payload := Payload {
  attributes : instance;
  model_fields_set : gset string;
}.

(** [data.model_dump(exclude_unset=True)] *)
Definition model_dump_exclude_unset (data : payload) : instance :=
  filter (λ kv, kv.1 ∈ model_fields_set data) (attributes data).

(** [inst.model_copy(update=upd)]: the entries of [upd] written over a copy
    of the attributes, without validation. *)
Definition model_copy (inst : instance) (upd : instance) : instance :=
  upd ∪ inst.

(** ** The world the handlers act on *)

(** A cell of the SQLite table: the [spreadsheet_id] column holds NULL,
    text, or bytes that were stored as they are. *)
Inductive sqlval :=
  | SqlNull
  | SqlText (s : string)
  | SqlBlob (b : list Byte.byte).

(** The columns of the table [users] beside its primary key [email]. *)
Record user_columns := Columns {
  name : string;
  encrypted_refresh_token : string;
  spreadsheet_id : sqlval;
}.

(** The dictionary that [get_user_by_email] makes of a row. *)
Record user_row := UserRow {
  email : string;
  columns :> user_columns;
}.

(** A tab of a remote document: its numeric id, its title and the cell
    text of its rows as the service returns it for the range [A:Z]. *)
Record sheet := Sheet {
  sheetId : Z;
  title : string;
  values : list (list string);
}.

Definition spreadsheet := list sheet.

Inductive request :=
  | AddSheet (t : string)
  | DeleteSheet (id : Z)
  | DeleteDimensionRows (id : Z) (startIndex endIndex : Z).

(** The calls of the remote API that the adapter issues. *)
Inductive api_call :=
  | SpreadsheetsCreate (t : string)
  | SpreadsheetsGet (sid : string)
  | SpreadsheetsBatchUpdate (sid : string) (requests : list request)
  | ValuesGet (sid : string) (sheet_name : string)
  | ValuesAppend (sid : string) (sheet_name : string) (row : list string)
  | ValuesUpdate (sid : string) (sheet_name : string) (row_index : nat) (row : list string)
  | ValuesBatchUpdate (sid : string) (data : list (string * list string)).

Record world := World {
  users : gmap string user_columns;      (* erp_users.db, keyed by email *)
  docs : gmap string spreadsheet;        (* the user's remote documents *)
  session_storage : gmap string string;  (* app.state.session_storage *)
  calls : list api_call;                 (* remote calls issued, oldest first *)
}.

Definition set_users (u : gmap string user_columns) (w : world) : world :=
  World u (docs w) (session_storage w) (calls w).
Definition set_docs (d : gmap string spreadsheet) (w : world) : world :=
  World (users w) d (session_storage w) (calls w).
Definition set_session_storage (s : gmap string string) (w : world) : world :=
  World (users w) (docs w) s (calls w).
Definition log_call (c : api_call) (w : world) : world :=
  World (users w) (docs w) (session_storage w) (calls w ++ [c]).

(** ** The handler monad: state that survives an exception *)

Definition M (A : Type) : Type := world → res A * world.

Definition ret {A} (a : A) : M A := λ w, (inr a, w).
Definition raise {A} (e : exn) : M A := λ w, (inl e, w).
Definition bind {A B} (m : M A) (k : A → M B) : M B :=
  λ w, match m w with
       | (inr a, w') => k a w'
       | (inl e, w') => (inl e, w')
       end.
(** [try: m except <handled>: k] *)
Definition try_except {A} (m : M A) (handler : exn → option (M A)) : M A :=
  λ w, match m w with
       | (inl e, w') => match handler e with Some k => k w' | None => (inl e, w') end
       | r => r
       end.
Definition lift {A} (r : res A) : M A := λ w, (r, w).
Definition gets {A} (f : world → A) : M A := λ w, (inr (f w), w).
Definition modify (f : world → world) : M unit := λ w, (inr tt, f w).

Declare Scope handler_scope.
Delimit Scope handler_scope with handler.
Notation "'let*' x ':=' m 'in' k" := (bind m (λ x, k))
  (at level 10, x name, m at level 100, k at level 200) : handler_scope.
Local Open Scope handler_scope.

(** ** database.py *)

Definition get_user_by_email (e : string) : M (option user_row) :=
  gets (λ w, UserRow e <$> users w !! e).

(** The upsert of the authentication callback.  The column [name] is
    [NOT NULL]: a missing display name makes the statement fail and the
    transaction roll back. *)
Definition save_or_update_user (e : string) (n : option string) (tok : string) : M unit :=
  let* user_exists := gets (λ w, users w !! e) in
  match user_exists with
  | Some u =>
      match n with
      | Some n' =>
          modify (λ w, set_users (<[e := Columns n' tok (spreadsheet_id u)]> (users w)) w)
      | None => raise IntegrityError
      end
  | None =>
      match n with
      | Some n' => modify (λ w, set_users (<[e := Columns n' tok SqlNull]> (users w)) w)
      | None => raise IntegrityError
      end
  end.

Definition update_spreadsheet_id (e : string) (sid : string) : M unit :=
  modify (λ w, set_users
    (alter (λ u, Columns (name u) (encrypted_refresh_token u) (SqlText sid)) e (users w)) w).

(** ** security.py *)

Definition ALGORITHM : string := "HS256".
Definition ACCESS_TOKEN_EXPIRE_MINUTES : Z := 60 * 24.

Definition encrypt_token (E : env) (token : string) : string := fernet_encrypt E token.

Definition decrypt_token (E : env) (encrypted_token : string) : res string :=
  match fernet_decrypt E encrypted_token with
  | Some t => inr t
  | None => inl InvalidToken
  end.

(** A claim of a token: text, or an instant in seconds since the epoch. *)
Inductive claim :=
  | CStr (s : string)
  | CTime (t : Z).

(** A signed token: the claims, and the key and algorithm that signed
    them (the signature itself is not computed). *)
Record jwt := Jwt {
  jwt_claims : pydict claim;
  jwt_key : string;
  jwt_algorithm : string;
}.

(** [timedelta(minutes=m)], in seconds. *)
Definition minutes (m : Z) : Z := m * 60.

(** A [timedelta] is true unless it is zero. *)
Definition timedelta_truthy (d : option Z) : bool :=
  match d with
  | Some s => negb (s =? 0)
  | None => false
  end.

Definition create_access_token (E : env) (data : pydict claim) (expires_delta : option Z) : jwt :=
  let to_encode := data in
  let expire :=
    if timedelta_truthy expires_delta
    then utcnow E + default 0 expires_delta
    else utcnow E + minutes 15 in
  let to_encode := dict_set "exp" (CTime expire) to_encode in
  Jwt to_encode (JWT_SECRET_KEY E) ALGORITHM.

(** ** The remote service

    What the adapter relies on of the spreadsheet service: documents
    are lists of tabs, a batch of requests applies as a whole or not at
    all, and cell text is stored as it is sent (the conversions the
    service applies to user-entered input are left out). *)

Definition find_sheet (t : string) (ss : spreadsheet) : option sheet :=
  List.find (λ s, bool_decide (title s = t)) ss.

Definition fresh_sheet_id (ss : spreadsheet) : Z :=
  1 + foldr (λ s m, Z.max (sheetId s) m) 0 ss.

(** Rows [startIndex, endIndex) removed. *)
Definition delete_rows (startIndex endIndex : Z) (rows : list (list string)) : list (list string) :=
  (take (Z.to_nat startIndex) rows ++ drop (Z.to_nat endIndex) rows)%list.

Definition apply_request (r : request) (ss : spreadsheet) : option spreadsheet :=
  match r with
  | AddSheet t =>
      match find_sheet t ss with
      | Some _ => None
      | None => Some (ss ++ [Sheet (fresh_sheet_id ss) t []])%list
      end
  | DeleteSheet id =>
      if existsb (λ s, sheetId s =? id) ss
      then Some (filter (λ s, sheetId s ≠ id) ss)
      else None
  | DeleteDimensionRows id a b =>
      if existsb (λ s, sheetId s =? id) ss && (0 <=? a) && (a <? b)
      then Some (map (λ s, if sheetId s =? id
                           then Sheet (sheetId s) (title s) (delete_rows a b (values s))
                           else s) ss)
      else None
  end.

Fixpoint apply_requests (rs : list request) (ss : spreadsheet) : option spreadsheet :=
  match rs with
  | [] => Some ss
  | r :: rest =>
      match apply_request r ss with
      | Some ss' => apply_requests rest ss'
      | None => None
      end
  end.

(** Writing [row] from column A: the cells it covers are replaced, the
    cells to their right stay. *)
Definition overlay (row old : list string) : list string :=
  (row ++ drop (length row) old)%list.

(** Writing [row] at the 0-based position [i] of a tab. *)
Definition write_row (i : nat) (row : list string) (rows : list (list string)) : list (list string) :=
  let rows := (rows ++ repeat [] (S i - length rows))%list in
  <[i := overlay row (default [] (rows !! i))]> rows.

Definition on_sheet (t : string) (f : list (list string) → list (list string))
    (ss : spreadsheet) : option spreadsheet :=
  match find_sheet t ss with
  | Some _ =>
      Some (map (λ s, if bool_decide (title s = t)
                      then Sheet (sheetId s) (title s) (f (values s)) else s) ss)
  | None => None
  end.

Fixpoint write_ranges (data : list (string * list string)) (ss : spreadsheet) : option spreadsheet :=
  match data with
  | [] => Some ss
  | (t, row) :: rest =>
      match on_sheet t (write_row 0 row) ss with
      | Some ss' => write_ranges rest ss'
      | None => None
      end
  end.

(** The answer of the service to a call, and the documents after it;
    [None] when the service refuses the call. *)
Inductive answer :=
  | ACreated (sid : string)
  | ASheets (ss : spreadsheet)
  | AValues (rows : list (list string))
  | ADone.

Definition serve (E : env) (n : nat) (c : api_call) (d : gmap string spreadsheet)
    : option (answer * gmap string spreadsheet) :=
  match c with
  | SpreadsheetsCreate _ =>
      let sid := new_spreadsheet_id E n in
      Some (ACreated sid, <[sid := [Sheet 0 "Sheet1" []]]> d)
  | SpreadsheetsGet sid => ss ← d !! sid; Some (ASheets ss, d)
  | SpreadsheetsBatchUpdate sid rs =>
      ss ← d !! sid; ss' ← apply_requests rs ss; Some (ADone, <[sid := ss']> d)
  | ValuesGet sid t =>
      ss ← d !! sid; s ← find_sheet t ss; Some (AValues (values s), d)
  | ValuesAppend sid t row =>
      ss ← d !! sid; ss' ← on_sheet t (λ rows, rows ++ [row])%list ss;
      Some (ADone, <[sid := ss']> d)
  | ValuesUpdate sid t i row =>
      ss ← d !! sid; ss' ← on_sheet t (write_row (i - 1) row) ss;
      Some (ADone, <[sid := ss']> d)
  | ValuesBatchUpdate sid data =>
      ss ← d !! sid; ss' ← write_ranges data ss; Some (ADone, <[sid := ss']> d)
  end.

(** One remote call: logged, then answered or failed with [HttpError]. *)
Definition execute (E : env) (c : api_call) : M answer :=
  λ w, let n := length (calls w) in
       let w := log_call c w in
       if reachable E n then
         match serve E n c (docs w) with
         | Some (a, d) => (inr a, set_docs d w)
         | None => (inl HttpError, w)
         end
       else (inl HttpError, w).

(** ** sheets_api.py *)

(** The exact headers of each tab, in the order of the dictionary. *)
Definition SHEET_STRUCTURE : pydict (list string) :=
  [ ("Admissions",
      [ "Admission ID"; "Student Name"; "Date of Birth"; "Gender"; "Contact Number";
        "Email"; "Address"; "Course Applied"; "Department"; "Admission Date";
        "Admission Status"; "Parent/Guardian Name"; "Parent/Guardian Contact";
        "Nationality"; "Category"; "Remarks" ]);
    ("Library",
      [ "Book ID"; "Title"; "Author"; "Genre"; "Publisher"; "Edition/Year"; "ISBN";
        "Shelf Location"; "Availability Status"; "Issued To"; "Issue Date";
        "Return Date"; "Fine Rate"; "Fine Accrued" ]);
    ("Hostel",
      [ "Occupancy ID"; "Hostel ID"; "Room Type"; "Fee Status"; "Room Number";
        "Occupied Beds"; "Vacant Beds"; "Student ID"; "Student Name";
        "Check IN Date"; "Check Out Date"; "Status" ]);
    ("Fees",
      [ "Receipt ID"; "Student ID"; "Student Name"; "Course"; "Semester/Year";
        "Fee Type"; "Amount"; "Payment Mode"; "Transaction ID"; "Payment Date";
        "Status"; "Remarks" ]);
    ("Users", [ "User ID"; "Username"; "Password"; "Role" ]) ].

(** [SHEET_STRUCTURE[sheet_name]], empty for a name that is not a key. *)
Definition sheet_headers (sheet_name : string) : list string :=
  default [] (dict_get sheet_name SHEET_STRUCTURE).

Record credentials := Credentials { refresh_token : string }.

Definition get_google_credentials (E : env) (user_data : user_row) : res credentials :=
  match decrypt_token E (encrypted_refresh_token user_data) with
  | inl e => inl e
  | inr decrypted_refresh_token =>
      if client_secrets_present E
      then inr (Credentials decrypted_refresh_token)
      else inl FileNotFoundError
  end.

Definition create_spreadsheet (E : env) (creds : credentials) (t : string) : M string :=
  let* a := execute E (SpreadsheetsCreate t) in
  match a with
  | ACreated sid => ret sid
  | _ => raise HttpError
  end.

Definition setup_erp_sheets (E : env) (creds : credentials) (sid : string) : M unit :=
  let requests :=
    (map (λ kv, AddSheet kv.1) SHEET_STRUCTURE ++ [DeleteSheet 0])%list in
  let* _ := execute E (SpreadsheetsBatchUpdate sid requests) in
  let data_to_write := map (λ kv, (kv.1, kv.2)) SHEET_STRUCTURE in
  let* _ := execute E (ValuesBatchUpdate sid data_to_write) in
  ret tt.

Definition append_row (E : env) (creds : credentials) (sid sheet_name : string)
    (vals : list string) : M unit :=
  let* _ := execute E (ValuesAppend sid sheet_name vals) in
  ret tt.

(** The rows of a tab read back from the service. *)
Definition fetch_values (E : env) (sid sheet_name : string) : M (list (list string)) :=
  let* a := execute E (ValuesGet sid sheet_name) in
  match a with
  | AValues rows => ret rows
  | _ => raise HttpError
  end.

Definition row_record (headers row : list string) : pydict string :=
  let padded_row := (row ++ repeat "" (length headers - length row))%list in
  dict_of (zip headers padded_row).

Definition get_all_rows (E : env) (creds : credentials) (sid sheet_name : string)
    : M (list (pydict string)) :=
  let* vals := fetch_values E sid sheet_name in
  match vals with
  | headers :: ((_ :: _) as rows) => ret (map (row_record headers) rows)
  | _ => ret []
  end.

(** [l.index(x)] *)
Fixpoint list_index (x : string) (l : list string) : option nat :=
  match l with
  | [] => None
  | y :: r => if decide (y = x) then Some O else S <$> list_index x r
  end.

(** The loop of [find_row_index] from the row at 0-based position [i]. *)
Fixpoint scan_rows (col_index : nat) (search_value : string)
    (rows : list (list string)) (i : nat) : option nat :=
  match rows with
  | [] => None
  | row :: rest =>
      if (col_index <? length row)%nat && bool_decide (row !! col_index = Some search_value)
      then Some (i + 1)%nat
      else scan_rows col_index search_value rest (S i)
  end.

(** [find_row_index] once the rows are read. *)
Definition find_in_values (sheet_name search_value search_column_name : string)
    (vals : list (list string)) : res nat :=
  match vals with
  | [] => inl (ValueError ("Sheet '" +:+ sheet_name +:+ "' is empty or not found."))
  | headers :: _ =>
      match list_index search_column_name headers with
      | None =>
          inl (ValueError ("Column '" +:+ search_column_name +:+ "' not found in sheet '"
                             +:+ sheet_name +:+ "'."))
      | Some col_index =>
          match scan_rows col_index search_value vals 0 with
          | Some i => inr i
          | None =>
              inl (ValueError ("Record with " +:+ search_column_name +:+ " '"
                                 +:+ search_value +:+ "' not found."))
          end
      end
  end.

Definition find_row_index (E : env) (creds : credentials)
    (sid sheet_name search_value search_column_name : string) : M nat :=
  let* vals := fetch_values E sid sheet_name in
  lift (find_in_values sheet_name search_value search_column_name vals).

Definition update_row (E : env) (creds : credentials)
    (sid sheet_name search_value search_column_name : string)
    (new_values : list string) : M unit :=
  let* row_index := find_row_index E creds sid sheet_name search_value search_column_name in
  let* _ := execute E (ValuesUpdate sid sheet_name row_index new_values) in
  ret tt.

Definition delete_row (E : env) (creds : credentials)
    (sid sheet_name search_value search_column_name : string) : M unit :=
  let* a := execute E (SpreadsheetsGet sid) in
  let sheets := match a with ASheets ss => ss | _ => [] end in
  match sheetId <$> find_sheet sheet_name sheets with
  | None => raise (ValueError ("Sheet with name '" +:+ sheet_name +:+ "' not found."))
  | Some sheet_id =>
      let* row_index := find_row_index E creds sid sheet_name search_value search_column_name in
      let requests :=
        [DeleteDimensionRows sheet_id (Z.of_nat row_index - 1) (Z.of_nat row_index)] in
      let* _ := execute E (SpreadsheetsBatchUpdate sid requests) in
      ret tt
  end.

(** ** main.py *)

(** Truth value, [isinstance(x, str)] and [len(x)] of a stored cell. *)
Definition sql_truthy (v : sqlval) : bool :=
  match v with
  | SqlNull => false
  | SqlText s => negb (String.length s =? 0)%nat
  | SqlBlob b => negb (length b =? 0)%nat
  end.

Definition sql_is_str (v : sqlval) : bool :=
  match v with SqlText _ => true | _ => false end.

Definition sql_len (v : sqlval) : nat :=
  match v with
  | SqlNull => 0
  | SqlText s => String.length s
  | SqlBlob b => length b
  end.

Definition invalid_spreadsheet_id : exn :=
  HTTPException 400
    "Invalid spreadsheet ID. Please re-run /api/setup-sheet to initialize your sheet.".

Definition get_spreadsheet_id (current_user : user_row) : M string :=
  let* user_data := get_user_by_email (email current_user) in
  match user_data with
  | None => raise AttributeError
  | Some u =>
      let sid := spreadsheet_id u in
      if negb (sql_truthy sid) || negb (sql_is_str sid) || (sql_len sid <? 30)%nat
      then raise invalid_spreadsheet_id
      else match sid with
           | SqlText s => ret s
           | _ => raise invalid_spreadsheet_id
           end
  end.

(** [key.lower().replace(' ', '_').replace('/', '_')] *)
Definition normalize (key : string) : string :=
  replace "/" "_" (replace " " "_" (lower key)).

Definition map_row_to_model (E : env) (row : pydict string) (cls : model) : res instance :=
  let mapped_data := dict_of (map (λ kv, (normalize kv.1, VStr kv.2)) row) in
  model_validate E cls mapped_data.

Definition map_model_to_row (E : env) (model_instance : instance) (sheet_name : string)
    : res (list string) :=
  match dict_get sheet_name SHEET_STRUCTURE with
  | None => inl (KeyError sheet_name)
  | Some headers =>
      let data_dict := model_dump_json model_instance in
      inr (map (λ header,
                  match data_dict !! normalize header with
                  | Some v => py_str E v
                  | None => ""
                  end) headers)
  end.

(** *** Authentication *)

(** What the identity provider hands back for an authorization code:
    nothing when the exchange fails, else the user info and the refresh
    credential, each of which may be missing. *)
Record oauth_grant := OAuthGrant {
  grant_email : option string;
  grant_name : option string;
  grant_refresh_token : option string;
}.

(** A redirect, with the cookie it sets. *)
Record redirect := Redirect {
  redirect_url : string;
  access_token_cookie : option jwt;
}.

Definition str_truthy (s : option string) : bool :=
  match s with
  | Some s => negb (String.length s =? 0)%nat
  | None => false
  end.

Definition auth_callback (E : env) (state_from_google : option string)
    (exchange : option oauth_grant) : M redirect :=
  try_except
    (let* saved_state := gets (λ w, session_storage w !! "state") in
     let* _ := modify (λ w, set_session_storage (delete "state" (session_storage w)) w) in
     if negb (str_truthy saved_state) || negb (bool_decide (saved_state = state_from_google))
     then raise (HTTPException 400 "Invalid state token (CSRF attack suspected).")
     else
       match exchange with
       | None => raise HttpError
       | Some g =>
           if negb (str_truthy (grant_email g)) || negb (str_truthy (grant_refresh_token g))
           then raise (HTTPException 400 "Could not retrieve user info or refresh token.")
           else
             let user_email := default "" (grant_email g) in
             let encrypted_token := encrypt_token E (default "" (grant_refresh_token g)) in
             let* _ := save_or_update_user user_email (grant_name g) encrypted_token in
             let access_token := create_access_token E [("sub", CStr user_email)] None in
             ret (Redirect "/api/me" (Some access_token))
       end)
    (λ e, Some (raise (HTTPExceptionFrom 500 "An unexpected error occurred during auth: " e))).

(** *** Provisioning *)

Record setup_reply := SetupReply {
  message : string;
  reply_spreadsheet_id : sqlval;
  url : option string;
}.

Definition setup_sheet (E : env) (current_user : user_row) : M setup_reply :=
  let* user_data := get_user_by_email (email current_user) in
  match user_data with
  | None => raise AttributeError
  | Some user_data =>
      if sql_truthy (spreadsheet_id user_data)
      then ret (SetupReply "Spreadsheet already set up." (spreadsheet_id user_data) None)
      else
        try_except
          (let* creds := lift (get_google_credentials E user_data) in
           let* sid := create_spreadsheet E creds ("ERP Data - " +:+ email user_data) in
           let* _ := update_spreadsheet_id (email user_data) sid in
           let* _ := setup_erp_sheets E creds sid in
           ret (SetupReply "Successfully created and set up ERP spreadsheet!"
                  (SqlText sid)
                  (Some ("https://docs.google.com/spreadsheets/d/" +:+ sid))))
          (λ e, Some (raise (HTTPExceptionFrom 500 "Sheet setup failed: " e)))
  end.

(** *** The CRUD factory *)

(** The arguments of [create_crud_endpoints]. *)
Record resource := Resource {
  res_model : model;
  create_model : model;
  update_model : model;
  sheet_name : string;
  id_field : string;
}.

Definition admissions : resource :=
  Resource Admission AdmissionCreate AdmissionUpdate "Admissions" "Admission ID".
Definition library : resource :=
  Resource Book BookCreate BookUpdate "Library" "Book ID".
Definition hostel : resource :=
  Resource HostelOccupancy HostelOccupancyCreate HostelOccupancyUpdate "Hostel" "Occupancy ID".
Definition fees : resource :=
  Resource FeeReceipt FeeReceiptCreate FeeReceiptUpdate "Fees" "Receipt ID".
Definition app_users : resource :=
  Resource AppUser AppUserCreate AppUserUpdate "Users" "User ID".

(** A list comprehension whose body can raise. *)
Fixpoint map_res {A B} (f : A → res B) (l : list A) : res (list B) :=
  match l with
  | [] => inr []
  | a :: r =>
      match f a with
      | inl e => inl e
      | inr b => match map_res f r with inl e => inl e | inr bs => inr (b :: bs) end
      end
  end.

Section Crud.
Context (E : env) (R : resource).

Definition add_record (data : instance) (current_user : user_row) : M instance :=
  let* sid := get_spreadsheet_id current_user in
  let* creds := lift (get_google_credentials E current_user) in
  let* row_values := lift (map_model_to_row E data (sheet_name R)) in
  let* _ := append_row E creds sid (sheet_name R) row_values in
  ret data.

Definition get_records (current_user : user_row) : M (list instance) :=
  let* sid := get_spreadsheet_id current_user in
  let* creds := lift (get_google_credentials E current_user) in
  let* rows := get_all_rows E creds sid (sheet_name R) in
  lift (map_res (λ row, map_row_to_model E row (res_model R)) rows).

(** The first fetched row whose identifier cell is [item_id]. *)
Definition matching_row (item_id : string) (rows : list (pydict string))
    : option (pydict string) :=
  List.find (λ r, bool_decide (dict_get (id_field R) r = Some item_id)) rows.

Definition update_record (item_id : string) (data : payload) (current_user : user_row)
    : M instance :=
  let* sid := get_spreadsheet_id current_user in
  let* creds := lift (get_google_credentials E current_user) in
  let* rows := get_all_rows E creds sid (sheet_name R) in
  match matching_row item_id rows with
  | None => raise (HTTPException 404 ("Record '" +:+ item_id +:+ "' not found."))
  | Some r =>
      let* existing_item := lift (map_row_to_model E r (res_model R)) in
      let updated_data := model_dump_exclude_unset data in
      let updated_item := model_copy existing_item updated_data in
      let* new_row_values := lift (map_model_to_row E updated_item (sheet_name R)) in
      let* _ := update_row E creds sid (sheet_name R) item_id (id_field R) new_row_values in
      ret updated_item
  end.

Definition delete_record (item_id : string) (current_user : user_row) : M unit :=
  let* sid := get_spreadsheet_id current_user in
  let* creds := lift (get_google_credentials E current_user) in
  try_except
    (delete_row E creds sid (sheet_name R) item_id (id_field R))
    (λ e, match e with
          | ValueError msg => Some (raise (HTTPException 404 msg))
          | _ => None
          end).
End Crud.

(** ** The identifier pattern *)

Definition is_lower_hex (a : ascii) : bool :=
  ascii_between "0" "9" a || ascii_between "a" "f" a.

Definition is_upper_hex (a : ascii) : bool :=
  ascii_between "0" "9" a || ascii_between "A" "F" a.

(** [s] is [prefix], a dash, and then exactly [n] characters of [0-9A-F]. *)
Definition matches_id (prefix : string) (n : nat) (s : string) : bool :=
  let p := prefix +:+ "-" in
  let tail := string_drop (String.length p) s in
  bool_decide (string_take (String.length p) s = p)
  && (String.length tail =? n)%nat
  && string_forallb is_upper_hex tail.

(** [<PREFIX>-[0-9A-F]{6 or 8}] *)
Definition matches_id_pattern (prefix s : string) : bool :=
  matches_id prefix 6 s || matches_id prefix 8 s.

(** The first [n] hexadecimal digits of a UUID: its top [4 n] bits. *)
Definition leading_hex (n : nat) (u : N) : string := string_take n (uuid_hex u).

(** ** A test double for the environment *)

Definition digit_value (a : ascii) : option Z :=
  if ascii_between "0" "9" a then Some (Z.of_N (N_of_ascii a) - 48) else None.

Fixpoint parse_digits (s : string) (acc : Z) : option Z :=
  match s with
  | EmptyString => Some acc
  | String a r => d ← digit_value a; parse_digits r (10 * acc + d)
  end.

(** Canonical decimal text: digits, with an optional leading minus. *)
Definition parse_decimal (s : string) : option Z :=
  match s with
  | EmptyString => None
  | String "-" (String a r) => Z.opp <$> parse_digits (String a r) 0
  | _ => parse_digits s 0
  end.

(** [YYYY-MM-DD] *)
Definition parse_iso_date (s : string) : option date :=
  if negb (String.length s =? 10)%nat then None else
  if negb (bool_decide (string_take 1 (string_drop 4 s) = "-")) then None else
  if negb (bool_decide (string_take 1 (string_drop 7 s) = "-")) then None else
  y ← parse_digits (string_take 4 s) 0;
  m ← parse_digits (string_take 2 (string_drop 5 s)) 0;
  d ← parse_digits (string_drop 8 s) 0;
  Some (Date y m d).

Definition test_coerce (t : ftype) (v : value) : option value :=
  match t, v with
  | TInt, VInt z => Some (VInt z)
  | TInt, VStr s => VInt <$> parse_decimal s
  | TDate, VDate d => Some (VDate d)
  | TDate, VStr s => VDate <$> parse_iso_date s
  | TFloat, VFloat f => Some (VFloat f)
  | _, _ => None
  end.

(** Dates and integers in canonical text, no float text, a cipher that
    tags its input, a service that is always up. *)
Definition test_env : env := {|
  coerce := test_coerce;
  repr_float := λ _, "";
  fernet_encrypt := λ s, "gAAAAA" +:+ s;
  fernet_decrypt := λ s, if bool_decide (string_take 6 s = "gAAAAA")
                         then Some (string_drop 6 s) else None;
  client_secrets_present := true;
  reachable := λ _, true;
  new_spreadsheet_id := λ n, "1BxiMVs0XRA5nFMdKvBdBZjgmUUqptlbs74OgvE2upm" +:+ pretty n;
  urandom16 := 0x0123456789abcdef0123456789abcdef;
  today := Date 2024 3 9;
  utcnow := 1700000000;
  JWT_SECRET_KEY := "secret";
|}.

(** A user who has logged in and not provisioned yet. *)
Definition alice : user_row :=
  UserRow "alice@example.org" (Columns "Alice" "gAAAAArefresh" SqlNull).

Definition world0 : world := World {[ "alice@example.org" := columns alice ]} ∅ ∅ [].

(** The same user after provisioning, and her freshly set up document. *)
Definition world1 : world := (setup_sheet test_env alice world0).2.

Definition alice1 : user_row :=
  UserRow "alice@example.org"
    (Columns "Alice" "gAAAAArefresh"
       (SqlText "1BxiMVs0XRA5nFMdKvBdBZjgmUUqptlbs74OgvE2upm0")).

Definition bob : instance :=
  list_to_map [ ("username", VStr "bob"); ("role", VStr "admin");
                ("password", VStr "pw"); ("user_id", VStr "USR-000001") ].

(** The document with one row in the tab [Users]. *)
Definition world2 : world := (add_record test_env app_users bob alice1 world1).2.

(** The prefix and the number of hexadecimal digits that each record
    kind is expected to use for the identifiers it generates. *)
Definition ID_SCHEMES : list (resource * string * nat) :=
  [ (admissions, "ADM", 6%nat); (library, "BK", 8%nat); (hostel, "HOC", 6%nat);
    (fees, "RCPT", 8%nat); (app_users, "USR", 6%nat) ].

(** Two environments that differ in the random bytes only, after the
    first six hexadecimal digits. *)
Definition env_with_random (r : N) : env :=
  Env (coerce test_env) (repr_float test_env) (fernet_encrypt test_env)
      (fernet_decrypt test_env) (client_secrets_present test_env)
      (reachable test_env) (new_spreadsheet_id test_env) r (today test_env)
      (utcnow test_env) (JWT_SECRET_KEY test_env).

(** A create payload for an admission that leaves out the identifier, the
    admission date and the remarks. *)
Definition admission_payload : pydict value :=
  [ ("student_name", VStr "Asha Rao"); ("date_of_birth", VStr "2001-02-03");
    ("gender", VStr "F"); ("contact_number", VStr "5550100");
    ("email", VStr "asha@example.org"); ("address", VStr "12 Hill Road");
    ("course_applied", VStr "BSc"); ("department", VStr "Physics");
    ("admission_status", VStr "Pending"); ("parent_guardian_name", VStr "R Rao");
    ("parent_guardian_contact", VStr "5550101"); ("nationality", VStr "Indian");
    ("category", VStr "General") ].

(** The record that the create model makes of [admission_payload] under
    [test_env]: identifier and date from the factories, no remarks. *)
Definition asha : instance :=
  list_to_map
    [ ("student_name", VStr "Asha Rao"); ("date_of_birth", VDate (Date 2001 2 3));
      ("gender", VStr "F"); ("contact_number", VStr "5550100");
      ("email", VStr "asha@example.org"); ("address", VStr "12 Hill Road");
      ("course_applied", VStr "BSc"); ("department", VStr "Physics");
      ("admission_status", VStr "Pending"); ("parent_guardian_name", VStr "R Rao");
      ("parent_guardian_contact", VStr "5550101"); ("nationality", VStr "Indian");
      ("category", VStr "General"); ("remarks", VNone);
      ("admission_id", VStr "ADM-012345"); ("admission_date", VDate (Date 2024 3 9)) ].

(** The row written for [asha]. *)
Definition asha_row : list string :=
  [ "ADM-012345"; "Asha Rao"; "2001-02-03"; "F"; "5550100"; "asha@example.org";
    "12 Hill Road"; "BSc"; "Physics"; "2024-03-09"; "Pending"; "R Rao"; "5550101";
    "Indian"; "General"; "None" ].

(** A handler leaves an observation [f] of the world as it found it,
    whether it returns or raises. *)
Definition frames {A B} (f : world → B) (m : M A) : Prop :=
  ∀ w, f (m w).2 = f w.

(** The world in which provisioning for the user [e] starts its header
    set-up, when the creation call it issued from [w] was answered: the
    new document exists, the creation call is logged, and the new
    identifier is written to the user's row. *)
Definition after_recording (E : env) (e : string) (w : world) : world :=
  let sid := new_spreadsheet_id E (length (calls w)) in
  let w_created :=
    set_docs (<[sid := [Sheet 0 "Sheet1" []]]> (docs w))
      (log_call (SpreadsheetsCreate ("ERP Data - " +:+ e)) w) in
  set_users
    (alter (λ c, Columns (name c) (encrypted_refresh_token c) (SqlText sid)) e
       (users w_created)) w_created.

(** The service goes down right after the first call it is sent. *)
Definition env_down_after_first_call : env :=
  Env (coerce test_env) (repr_float test_env) (fernet_encrypt test_env)
      (fernet_decrypt test_env) (client_secrets_present test_env)
      (λ n, bool_decide (n = 0%nat)) (new_spreadsheet_id test_env) (urandom16 test_env)
      (today test_env) (utcnow test_env) (JWT_SECRET_KEY test_env).

(** What [setup_sheet] raises for an exception [e] caught in its body. *)
Definition setup_failed (e : exn) : exn := HTTPExceptionFrom 500 "Sheet setup failed: " e.

(** The rows of the tab [t] of the document [sid], as stored. *)
Definition sheet_values (sid t : string) (w : world) : option (list (list string)) :=
  ss ← docs w !! sid; values <$> find_sheet t ss.

(** An update payload that names the role only. *)
Definition role_patch : payload :=
  Payload {[ "username" := VNone; "role" := VStr "teacher"; "password" := VNone ]}
          {[ "role" ]}.

(** ** security.py: verification of the session cookie *)

(** [jwt.decode(token, JWT_SECRET_KEY, algorithms=[ALGORITHM])]: the
    token must be signed with the key and the algorithm, its [exp], when
    present, must not lie before the clock, and its [sub], when present,
    must be text.  [None] stands for [JWTError].  A token that verifies
    under the key was made by [create_access_token], whose only caller
    passes the claim [sub]; the other registered claims never occur. *)
Definition jwt_decode (E : env) (token : jwt) : option (pydict claim) :=
  if negb (bool_decide (jwt_key token = JWT_SECRET_KEY E)) then None
  else if negb (bool_decide (jwt_algorithm token = ALGORITHM)) then None
  else
    let claims := jwt_claims token in
    let exp_ok :=
      match dict_get "exp" claims with
      | None => true
      | Some (CTime exp) => negb (exp <? utcnow E)
      | Some (CStr _) => false
      end in
    let sub_ok :=
      match dict_get "sub" claims with
      | Some (CTime _) => false
      | _ => true
      end in
    if exp_ok && sub_ok then Some claims else None.

Definition not_authenticated : exn := HTTPException 401 "Not authenticated".
Definition credentials_exception : exn :=
  HTTPException 401 "Could not validate credentials".

(** The dependency that resolves the caller from the cookie
    [access_token]. *)
Definition get_current_user (E : env) (cookie : option jwt) : M user_row :=
  match cookie with
  | None => raise not_authenticated
  | Some token =>
      match jwt_decode E token with
      | None => raise credentials_exception
      | Some payload =>
          match dict_get "sub" payload with
          | Some (CStr user_email) =>
              let* user := get_user_by_email user_email in
              match user with
              | None => raise credentials_exception
              | Some user => ret user
              end
          | _ => raise credentials_exception
          end
      end
  end.

(** ** main.py: the start of the login flow *)

(** [login_google], given the value that [secrets.token_urlsafe(32)]
    draws: the value is stored in the one-time slot before the flow is
    built from the client-secrets file, and handed to the identity
    provider with the redirect. *)
Definition login_google (E : env) (state : string) : M string :=
  let* _ := modify (λ w, set_session_storage (<["state" := state]> (session_storage w)) w) in
  if client_secrets_present E then ret state else raise FileNotFoundError.

(** What [auth_callback] raises for an exception [e] caught in its body. *)
Definition auth_failed (e : exn) : exn :=
  HTTPExceptionFrom 500 "An unexpected error occurred during auth: " e.

Definition invalid_state : exn :=
  HTTPException 400 "Invalid state token (CSRF attack suspected).".

(** The five mounted resources. *)
Definition RESOURCES : list resource := [admissions; library; hostel; fees; app_users].

(** * Properties *)

(** ** Dictionaries *)

Lemma dict_get_set_eq {V} (k : string) (v : V) (d : pydict V) :
  dict_get k (dict_set k v d) = Some v.
Proof.
  induction d as [|[k' v'] d IH]; simpl.
  - by rewrite decide_True.
  - destruct (decide (k' = k)) as [->|Hne]; simpl.
    + by rewrite decide_True.
    + by rewrite decide_False.
Qed.


(** ** Stepping through handlers *)

Ltac unfold_handler :=
  unfold bind, ret, raise, gets, modify, lift, try_except in *; simpl in *.

(** ** security.py and the login flow *)

Lemma create_access_token_default E data :
  dict_get "exp" (jwt_claims (create_access_token E data None))
  = Some (CTime (utcnow E + minutes 15)).
Proof. unfold create_access_token; simpl. apply dict_get_set_eq. Qed.

Lemma create_access_token_explicit E data d :
  d ≠ 0 →
  dict_get "exp" (jwt_claims (create_access_token E data (Some d)))
  = Some (CTime (utcnow E + d)).
Proof.
  intros Hd. unfold create_access_token, timedelta_truthy; simpl.
  destruct (Z.eqb_spec d 0); [done|]. simpl. apply dict_get_set_eq.
Qed.

(** C1.  Every successful login sets a cookie whose token carries the
    user's email under [sub] and expires [minutes 15] after the call: the
    callback passes no lifetime, so the default applies, and the
    constant [ACCESS_TOKEN_EXPIRE_MINUTES] (one day) is never used.  The
    default itself is fifteen minutes, and an explicit non-zero lifetime
    is honoured. *)
Theorem login_token_lifetime E st exchange w r w' :
  auth_callback E st exchange w = (inr r, w') →
  (∀ data, dict_get "exp" (jwt_claims (create_access_token E data None))
           = Some (CTime (utcnow E + minutes 15))) ∧
  ∃ g user_email tok,
    exchange = Some g ∧ grant_email g = Some user_email ∧
    access_token_cookie r = Some tok ∧
    dict_get "sub" (jwt_claims tok) = Some (CStr user_email) ∧
    dict_get "exp" (jwt_claims tok) = Some (CTime (utcnow E + minutes 15)) ∧
    dict_get "exp" (jwt_claims tok)
      ≠ Some (CTime (utcnow E + minutes ACCESS_TOKEN_EXPIRE_MINUTES)).
Proof.
  intros Hrun. split; [apply create_access_token_default|].
  unfold auth_callback in Hrun. unfold_handler.
  destruct (negb (str_truthy (session_storage w !! "state"))
            || negb (bool_decide (session_storage w !! "state" = st))); [done|].
  destruct exchange as [g|]; [|done].
  destruct (negb (str_truthy (grant_email g))
            || negb (str_truthy (grant_refresh_token g))) eqn:Hg; [done|].
  apply orb_false_elim in Hg as [Hmail _].
  destruct (grant_email g) as [user_email|] eqn:Hemail; [|done].
  unfold save_or_update_user in Hrun. unfold_handler.
  exists g, user_email.
  repeat case_match; simplify_eq; eexists; (split_and!; [done..| |]).
  all: rewrite ?create_access_token_default; try done.
  all: intros [=Hexp]; unfold minutes, ACCESS_TOKEN_EXPIRE_MINUTES in Hexp; lia.
Qed.

Lemma login_token_lifetime_witness :
  ∃ tok, access_token_cookie
           (Redirect "/api/me"
              (Some (create_access_token test_env [("sub", CStr "bob@x.org")] None)))
         = Some tok ∧
         dict_get "exp" (jwt_claims tok) = Some (CTime 1700000900).
Proof.
  destruct (login_token_lifetime test_env (Some "xyz")
              (Some (OAuthGrant (Some "bob@x.org") (Some "Bob") (Some "rt")))
              (set_session_storage {[ "state" := "xyz" ]} world0)
              (Redirect "/api/me"
                 (Some (create_access_token test_env [("sub", CStr "bob@x.org")] None)))
              (set_users (<["bob@x.org" := Columns "Bob" "gAAAAArt" SqlNull]> (users world0))
                 (set_session_storage ∅ world0)))
    as (_ & g & e & tok & _ & _ & Hc & _ & Hexp & _).
  - vm_compute. reflexivity.
  - exists tok. split; [exact Hc | exact Hexp].
Defined.

(** ** Strings *)

Lemma string_take_app (p t : string) : string_take (String.length p) (p +:+ t) = p.
Proof. induction p as [|a p IH]; simpl; [by destruct t | by rewrite IH]. Qed.

Lemma string_drop_app (p t : string) : string_drop (String.length p) (p +:+ t) = t.
Proof. induction p as [|a p IH]; simpl; done. Qed.

Lemma string_app_inj (p t t' : string) : p +:+ t = p +:+ t' → t = t'.
Proof. induction p as [|a p IH]; simpl; [done | intros [=]; auto]. Qed.

Lemma string_app_assoc (a b c : string) : (a +:+ b) +:+ c = a +:+ (b +:+ c).
Proof.
  induction a as [|x a IH]; [done|].
  change (String x ((a +:+ b) +:+ c) = String x (a +:+ b +:+ c)). by f_equal.
Qed.

Lemma string_map_length f s : String.length (string_map f s) = String.length s.
Proof. induction s; simpl; congruence. Qed.

Lemma string_take_length n s :
  (n ≤ String.length s)%nat → String.length (string_take n s) = n.
Proof.
  revert s; induction n as [|n IH]; intros [|a s]; simpl; try lia.
  intros ?. rewrite IH; lia.
Qed.

Lemma string_take_forallb p n s :
  string_forallb p s = true → string_forallb p (string_take n s) = true.
Proof.
  revert s; induction n as [|n IH]; intros [|a s]; simpl; try done.
  intros [? ?]%andb_true_iff. rewrite IH; [|done]. by rewrite andb_true_r.
Qed.

(** ** models.py: the identifier factory *)

Lemma hex_digit_lower d : is_lower_hex (hex_digit d) = true.
Proof.
  destruct d as [|q]; [done|].
  do 5 (try (destruct q as [q|q|]; try done)).
Qed.

Lemma hex_go_forallb k n acc :
  string_forallb is_lower_hex acc = true →
  string_forallb is_lower_hex (hex_go k n acc) = true.
Proof.
  revert n acc; induction k as [|k IH]; intros n acc Hacc; simpl; [done|].
  apply IH. simpl. by rewrite hex_digit_lower, Hacc.
Qed.

Lemma hex_go_length k n acc :
  String.length (hex_go k n acc) = (k + String.length acc)%nat.
Proof.
  revert n acc; induction k as [|k IH]; intros n acc; simpl; [done|].
  rewrite IH. simpl. lia.
Qed.

Lemma uuid_hex_length u : String.length (uuid_hex u) = 32%nat.
Proof. unfold uuid_hex. by rewrite hex_go_length. Qed.

Lemma uuid_hex_lower u : string_forallb is_lower_hex (uuid_hex u) = true.
Proof. unfold uuid_hex. by apply hex_go_forallb. Qed.

Lemma ascii_upper_hex a : is_lower_hex a = true → is_upper_hex (ascii_upper a) = true.
Proof. destruct a as [[] [] [] [] [] [] [] []]; by vm_compute. Qed.

Lemma ascii_lower_upper_hex a : is_lower_hex a = true → ascii_lower (ascii_upper a) = a.
Proof. destruct a as [[] [] [] [] [] [] [] []]; by vm_compute. Qed.

Lemma upper_hex s :
  string_forallb is_lower_hex s = true → string_forallb is_upper_hex (upper s) = true.
Proof.
  unfold upper. induction s as [|a s IH]; simpl; [done|].
  intros [? ?]%andb_true_iff. by rewrite ascii_upper_hex, IH.
Qed.

Lemma lower_upper_hex s :
  string_forallb is_lower_hex s = true → lower (upper s) = s.
Proof.
  unfold lower, upper. induction s as [|a s IH]; simpl; [done|].
  intros [? ?]%andb_true_iff. by rewrite ascii_lower_upper_hex, IH.
Qed.

Lemma leading_hex_lower n u : string_forallb is_lower_hex (leading_hex n u) = true.
Proof. apply string_take_forallb, uuid_hex_lower. Qed.

Lemma id_factory_matches E prefix n :
  (n ≤ 32)%nat → matches_id prefix n (id_factory E prefix n) = true.
Proof.
  intros Hn. unfold matches_id, id_factory.
  rewrite <- string_app_assoc.
  rewrite string_take_app, string_drop_app.
  rewrite bool_decide_eq_true_2 by done. simpl.
  unfold upper. rewrite string_map_length.
  rewrite string_take_length by (rewrite uuid_hex_length; lia).
  rewrite Nat.eqb_refl. simpl.
  apply upper_hex, (leading_hex_lower n).
Qed.

Lemma id_factory_eq_iff E1 E2 prefix n :
  id_factory E1 prefix n = id_factory E2 prefix n
  ↔ leading_hex n (uuid4 E1) = leading_hex n (uuid4 E2).
Proof.
  unfold id_factory. split.
  - intros H. apply string_app_inj, string_app_inj in H.
    apply (f_equal lower) in H.
    by rewrite !lower_upper_hex in H by apply (leading_hex_lower n).
  - unfold leading_hex. by intros ->.
Qed.

(** ** pydantic: what validation puts into an instance *)

Lemma model_validate_lookup E cls data inst f :
  model_validate E cls data = inr inst →
  NoDup (fname <$> cls) →
  f ∈ cls →
  ∃ v, field_value E data f = Some v ∧ inst !! fname f = Some v.
Proof.
  revert inst. induction cls as [|g cls IH]; intros inst Hval Hnd Hin.
  - by apply elem_of_nil in Hin.
  - simpl in Hval.
    destruct (field_value E data g) as [v|] eqn:Hg; [|done].
    destruct (model_validate E cls data) as [e|m] eqn:Hm; [done|].
    injection Hval as <-.
    apply NoDup_cons in Hnd as [Hfresh Hnd].
    apply elem_of_cons in Hin as [->|Hin].
    + exists v. by rewrite lookup_insert_eq.
    + destruct (IH m eq_refl Hnd Hin) as (v' & Hv' & Hl).
      exists v'. split; [done|].
      rewrite lookup_insert_ne; [done|].
      intros Heq. apply Hfresh. rewrite Heq. by apply list_elem_of_fmap_2.
Qed.

Lemma model_validate_lookup_None E cls data inst k :
  model_validate E cls data = inr inst →
  k ∉ fname <$> cls →
  inst !! k = None.
Proof.
  revert inst. induction cls as [|g cls IH]; intros inst Hval Hk; simpl in Hval.
  - by injection Hval as <-.
  - destruct (field_value E data g) as [v|]; [|done].
    destruct (model_validate E cls data) as [e|m]; [done|].
    injection Hval as <-.
    apply not_elem_of_cons in Hk as [Hne Hk].
    rewrite lookup_insert_ne by done. by apply IH.
Qed.

(** A create model called without its identifier runs the factory. *)
Lemma create_id_default E cls data inst idf prefix n :
  NoDup (fname <$> cls) →
  Field idf TStr false (IdFactory prefix n) ∈ cls →
  dict_get idf data = None →
  model_validate E cls data = inr inst →
  inst !! idf = Some (VStr (id_factory E prefix n)).
Proof.
  intros Hnd Hin Hnone Hval.
  destruct (model_validate_lookup _ _ _ _ _ Hval Hnd Hin) as (v & Hv & Hl).
  simpl in Hl. rewrite Hl. f_equal.
  unfold field_value in Hv; simpl in Hv. rewrite Hnone in Hv.
  by injection Hv as <-.
Qed.

Lemma id_scheme_field R prefix n :
  (R, prefix, n) ∈ ID_SCHEMES →
  NoDup (fname <$> create_model R)
  ∧ Field (normalize (id_field R)) TStr false (IdFactory prefix n) ∈ create_model R
  ∧ (n = 6 ∨ n = 8)%nat.
Proof.
  unfold ID_SCHEMES. intros Hin.
  repeat (apply elem_of_cons in Hin as [Hin|Hin]; [injection Hin as -> -> ->|]);
    [..|by apply elem_of_nil in Hin].
  all: split_and!;
    [ apply (bool_decide_unpack _); by vm_compute
    | apply (bool_decide_unpack _); by vm_compute
    | auto ].
Qed.

(** C7 (as amended).  A create call that leaves the identifier out gets
    the kind's prefix, a dash and exactly 6 (ADM, HOC, USR) or 8 (BK,
    RCPT) characters of [0-9A-F]; two creates get the same identifier
    exactly when their UUIDs agree on that many leading hexadecimal
    digits. *)
Theorem generated_identifier_format R prefix n E1 E2 p1 p2 i1 i2 :
  (R, prefix, n) ∈ ID_SCHEMES →
  dict_get (normalize (id_field R)) p1 = None →
  dict_get (normalize (id_field R)) p2 = None →
  model_validate E1 (create_model R) p1 = inr i1 →
  model_validate E2 (create_model R) p2 = inr i2 →
  ∃ s1 s2,
    i1 !! normalize (id_field R) = Some (VStr s1) ∧
    i2 !! normalize (id_field R) = Some (VStr s2) ∧
    matches_id prefix n s1 = true ∧ matches_id prefix n s2 = true ∧
    matches_id_pattern prefix s1 = true ∧ matches_id_pattern prefix s2 = true ∧
    (s1 = s2 ↔ leading_hex n (uuid4 E1) = leading_hex n (uuid4 E2)).
Proof.
  intros Hscheme Hp1 Hp2 Hv1 Hv2.
  destruct (id_scheme_field _ _ _ Hscheme) as (Hnd & Hin & Hn).
  exists (id_factory E1 prefix n), (id_factory E2 prefix n).
  assert (∀ E, matches_id prefix n (id_factory E prefix n) = true) as Hfmt.
  { intros E. apply id_factory_matches. lia. }
  assert (∀ E, matches_id_pattern prefix (id_factory E prefix n) = true) as Hpat.
  { intros E. unfold matches_id_pattern.
    destruct Hn as [-> | ->]; rewrite Hfmt; [done | apply orb_true_r]. }
  split_and!; try done.
  - exact (create_id_default E1 _ p1 i1 _ prefix n Hnd Hin Hp1 Hv1).
  - exact (create_id_default E2 _ p2 i2 _ prefix n Hnd Hin Hp2 Hv2).
  - apply id_factory_eq_iff.
Qed.

Lemma generated_identifier_format_witness :
  ∃ s, matches_id "ADM" 6 s = true ∧ matches_id_pattern "ADM" s = true.
Proof.
  destruct (model_validate test_env AdmissionCreate admission_payload)
    as [e|i] eqn:Hi; [by vm_compute in Hi|].
  destruct (generated_identifier_format admissions "ADM" 6 test_env test_env
              admission_payload admission_payload i i)
    as (s1 & s2 & _ & _ & H1 & _ & H2 & _).
  - unfold ID_SCHEMES. constructor.
  - reflexivity.
  - reflexivity.
  - exact Hi.
  - exact Hi.
  - exists s1. split; [exact H1 | exact H2].
Defined.

(** C7 (as stated) fails: two creates whose UUIDs differ can still get
    the same identifier, because only the first six hexadecimal digits
    of the UUID are kept. *)
Lemma consecutive_creates_can_collide :
  ¬ (∀ E1 E2 p i1 i2,
       uuid4 E1 ≠ uuid4 E2 →
       dict_get "admission_id" p = None →
       model_validate E1 AdmissionCreate p = inr i1 →
       model_validate E2 AdmissionCreate p = inr i2 →
       i1 !! "admission_id" ≠ i2 !! "admission_id").
Proof.
  intros Hclaim.
  pose (E1 := env_with_random 0x0123456789abcdef0123456789abcdef).
  pose (E2 := env_with_random 0x01234500000000000000000000000000).
  destruct (model_validate E1 AdmissionCreate admission_payload)
    as [e|i1] eqn:H1; [by vm_compute in H1|].
  destruct (model_validate E2 AdmissionCreate admission_payload)
    as [e|i2] eqn:H2; [by vm_compute in H2|].
  apply (Hclaim E1 E2 admission_payload i1 i2); try done.
  assert (NoDup (fname <$> AdmissionCreate)) as Hnd
    by (apply (bool_decide_unpack _); by vm_compute).
  assert (Field "admission_id" TStr false (IdFactory "ADM" 6) ∈ AdmissionCreate) as Hin
    by (apply (bool_decide_unpack _); by vm_compute).
  rewrite (create_id_default E1 _ admission_payload _ _ _ _ Hnd Hin eq_refl H1).
  rewrite (create_id_default E2 _ admission_payload _ _ _ _ Hnd Hin eq_refl H2).
  by vm_compute.
Qed.

(** ** main.py: the record mapper *)

(** C2.  The round trip through the mapper does not give back a record
    with an optional field left at [None]: the create model accepts
    [admission_payload] and yields [asha]; her row holds the text [None]
    in the column Remarks; and no conversion table makes the row read
    back as [asha], since a text cell is always accepted by a [str]
    field as it is.  Under [test_env] it reads back with the remarks
    ["None"]. *)
Theorem roundtrip_loses_unset_optional :
  model_validate test_env AdmissionCreate admission_payload = inr asha ∧
  asha !! "remarks" = Some VNone ∧
  (∀ E, map_model_to_row E asha "Admissions" = inr asha_row) ∧
  last asha_row = Some "None" ∧
  (∀ E, map_row_to_model E (row_record (sheet_headers "Admissions") asha_row) Admission
        ≠ inr asha) ∧
  map_row_to_model test_env (row_record (sheet_headers "Admissions") asha_row) Admission
  = inr (<["remarks" := VStr "None"]> asha).
Proof.
  split_and!.
  - by vm_compute.
  - by vm_compute.
  - intros E. by vm_compute.
  - done.
  - intros E Hback. unfold map_row_to_model in Hback.
    assert (NoDup (fname <$> Admission)) as Hnd
      by (apply (bool_decide_unpack _); by vm_compute).
    assert (opt "remarks" TStr ∈ Admission) as Hin
      by (apply (bool_decide_unpack _); by vm_compute).
    destruct (model_validate_lookup _ _ _ _ _ Hback Hnd Hin) as (v & Hv & Hl).
    vm_compute in Hv. vm_compute in Hl. congruence.
  - by vm_compute.
Qed.

(** ** Handlers and the world *)

Lemma get_spreadsheet_id_state u w : (get_spreadsheet_id u w).2 = w.
Proof.
  unfold get_spreadsheet_id, get_user_by_email. unfold_handler.
  destruct (users w !! email u) as [cols|]; simpl; [|done].
  destruct (negb (sql_truthy (spreadsheet_id cols))
            || negb (sql_is_str (spreadsheet_id cols))
            || (sql_len (spreadsheet_id cols) <? 30)%nat); [done|].
  by destruct (spreadsheet_id cols).
Qed.

(** The identifier is missing, is not text, or is too short. *)
Lemma get_spreadsheet_id_refuses u cols w :
  users w !! email u = Some cols →
  spreadsheet_id cols = SqlNull
  ∨ sql_is_str (spreadsheet_id cols) = false
  ∨ (sql_len (spreadsheet_id cols) < 30)%nat →
  get_spreadsheet_id u w = (inl invalid_spreadsheet_id, w).
Proof.
  intros Hu Hbad.
  unfold get_spreadsheet_id, get_user_by_email. unfold_handler.
  rewrite Hu; simpl.
  destruct Hbad as [Hnull | [Hstr | Hlen]].
  - by rewrite Hnull.
  - rewrite Hstr; simpl. by rewrite orb_true_r.
  - apply Nat.ltb_lt in Hlen. rewrite Hlen. by rewrite orb_true_r.
Qed.

(** When the identifier resolves, it is the stored text. *)
Lemma get_spreadsheet_id_resolves u w sid w' :
  get_spreadsheet_id u w = (inr sid, w') →
  w' = w ∧ ∃ cols, users w !! email u = Some cols ∧ spreadsheet_id cols = SqlText sid
                   ∧ (30 ≤ String.length sid)%nat.
Proof.
  unfold get_spreadsheet_id, get_user_by_email. unfold_handler.
  destruct (users w !! email u) as [cols|]; simpl; [|done].
  destruct (negb (sql_truthy (spreadsheet_id cols))
            || negb (sql_is_str (spreadsheet_id cols))
            || (sql_len (spreadsheet_id cols) <? 30)%nat) eqn:Hchk; [done|].
  destruct (spreadsheet_id cols) as [|s|b] eqn:Hsid; try done.
  intros [= <- <-]. split; [done|]. exists cols. split_and!; try done.
  apply orb_false_elim in Hchk as [_ Hlen]. simpl in Hlen.
  by apply Nat.ltb_ge in Hlen.
Qed.

(** C8.  Each of the four operations starts by resolving the caller's
    container identifier; when the stored identifier is absent, is not
    text, or has fewer than 30 characters, the operation fails with
    status 400 and the world is left as it was: in particular no call to
    the remote store has been logged. *)
Theorem crud_requires_provisioning E R u cols w inst item_id data :
  users w !! email u = Some cols →
  spreadsheet_id cols = SqlNull
  ∨ sql_is_str (spreadsheet_id cols) = false
  ∨ (sql_len (spreadsheet_id cols) < 30)%nat →
  invalid_spreadsheet_id
  = HTTPException 400
      "Invalid spreadsheet ID. Please re-run /api/setup-sheet to initialize your sheet."
  ∧ add_record E R inst u w = (inl invalid_spreadsheet_id, w)
  ∧ get_records E R u w = (inl invalid_spreadsheet_id, w)
  ∧ update_record E R item_id data u w = (inl invalid_spreadsheet_id, w)
  ∧ delete_record E R item_id u w = (inl invalid_spreadsheet_id, w)
  ∧ calls (add_record E R inst u w).2 = calls w
  ∧ calls (get_records E R u w).2 = calls w
  ∧ calls (update_record E R item_id data u w).2 = calls w
  ∧ calls (delete_record E R item_id u w).2 = calls w.
Proof.
  intros Hu Hbad.
  pose proof (get_spreadsheet_id_refuses u cols w Hu Hbad) as Hsid.
  assert (add_record E R inst u w = (inl invalid_spreadsheet_id, w)) as Ha
    by (unfold add_record, bind; by rewrite Hsid).
  assert (get_records E R u w = (inl invalid_spreadsheet_id, w)) as Hg
    by (unfold get_records, bind; by rewrite Hsid).
  assert (update_record E R item_id data u w = (inl invalid_spreadsheet_id, w)) as Hup
    by (unfold update_record, bind; by rewrite Hsid).
  assert (delete_record E R item_id u w = (inl invalid_spreadsheet_id, w)) as Hd
    by (unfold delete_record, bind; by rewrite Hsid).
  rewrite Ha, Hg, Hup, Hd. by split_and!.
Qed.

Lemma crud_requires_provisioning_witness :
  delete_record test_env app_users "USR-000001" alice world0
  = (inl invalid_spreadsheet_id, world0)
  ∧ calls (add_record test_env app_users bob alice world0).2 = [].
Proof.
  destruct (crud_requires_provisioning test_env app_users alice (columns alice) world0
              bob "USR-000001" (Payload ∅ ∅))
    as (_ & _ & _ & _ & Hd & Ha & _).
  - reflexivity.
  - left. reflexivity.
  - split; [exact Hd | exact Ha].
Defined.

(** ** Frame rules *)

Section Frames.
Context {B : Type} (f : world → B).

Lemma frames_ret {A} (a : A) : frames f (ret a).
Proof. done. Qed.

Lemma frames_raise {A} e : frames f (@raise A e).
Proof. done. Qed.

Lemma frames_lift {A} (r : res A) : frames f (lift r).
Proof. done. Qed.

Lemma frames_gets {A} (g : world → A) : frames f (gets g).
Proof. done. Qed.

Lemma frames_bind {A C} (m : M A) (k : A → M C) :
  frames f m → (∀ a, frames f (k a)) → frames f (bind m k).
Proof.
  intros Hm Hk w. unfold bind. specialize (Hm w).
  destruct (m w) as [[e|a] w1]; simpl in *; [done|].
  by rewrite Hk.
Qed.

Lemma frames_try {A} (m : M A) handler :
  frames f m → (∀ e k, handler e = Some k → frames f k) →
  frames f (try_except m handler).
Proof.
  intros Hm Hh w. unfold try_except. specialize (Hm w).
  destruct (m w) as [[e|a] w1]; simpl in *; [|done].
  destruct (handler e) as [k|] eqn:Hk; [|done].
  by rewrite (Hh e k Hk).
Qed.

(** A remote call touches the documents and the log only. *)
Lemma frames_execute E c :
  (∀ w c, f (log_call c w) = f w) → (∀ w d, f (set_docs d w) = f w) →
  frames f (execute E c).
Proof.
  intros Hlog Hdocs w. unfold execute.
  destruct (reachable E (length (calls w))); simpl; [|done].
  destruct (serve E (length (calls w)) c (docs w)) as [[a d]|]; simpl; [|done].
  by rewrite Hdocs, Hlog.
Qed.
End Frames.

Lemma frames_get_spreadsheet_id {B} (f : world → B) u : frames f (get_spreadsheet_id u).
Proof. intros w. by rewrite get_spreadsheet_id_state. Qed.

Ltac frame_step :=
  first
    [ apply frames_ret | apply frames_raise | apply frames_lift | apply frames_gets
    | apply frames_get_spreadsheet_id
    | apply frames_execute; [done | done]
    | apply frames_bind; [|intros ?]
    | apply frames_try; [|intros ? ? ?] ].

Ltac frame := repeat (frame_step || case_match); simplify_eq; repeat frame_step.

(** Nothing in the adapter writes to the user directory. *)
Section UsersFrame.
Context {B : Type} (f : world → B).
Context (Hlog : ∀ w c, f (log_call c w) = f w).
Context (Hdocs : ∀ w d, f (set_docs d w) = f w).

Lemma frames_fetch_values E sid t : frames f (fetch_values E sid t).
Proof. unfold fetch_values. frame. Qed.

Lemma frames_get_all_rows E creds sid t : frames f (get_all_rows E creds sid t).
Proof.
  unfold get_all_rows. apply frames_bind; [apply frames_fetch_values|].
  intros vals. frame.
Qed.

Lemma frames_find_row_index E creds sid t v col :
  frames f (find_row_index E creds sid t v col).
Proof.
  unfold find_row_index. apply frames_bind; [apply frames_fetch_values|].
  intros vals. frame.
Qed.

Lemma frames_append_row E creds sid t vals : frames f (append_row E creds sid t vals).
Proof. unfold append_row. frame. Qed.

Lemma frames_update_row E creds sid t v col vals :
  frames f (update_row E creds sid t v col vals).
Proof.
  unfold update_row. apply frames_bind; [apply frames_find_row_index|].
  intros i. frame.
Qed.

Lemma frames_delete_row E creds sid t v col :
  frames f (delete_row E creds sid t v col).
Proof.
  unfold delete_row. apply frames_bind; [frame|]. intros a.
  case_match; [|frame].
  apply frames_bind; [apply frames_find_row_index|]. intros i. frame.
Qed.

Lemma frames_create_spreadsheet E creds t : frames f (create_spreadsheet E creds t).
Proof. unfold create_spreadsheet. frame. Qed.

Lemma frames_setup_erp_sheets E creds sid : frames f (setup_erp_sheets E creds sid).
Proof. unfold setup_erp_sheets. frame. Qed.

Lemma frames_add_record E R inst u : frames f (add_record E R inst u).
Proof.
  unfold add_record. do 3 (apply frames_bind; [frame|]; intros ?).
  apply frames_bind; [apply frames_append_row|]. intros; frame.
Qed.

Lemma frames_get_records E R u : frames f (get_records E R u).
Proof.
  unfold get_records. do 2 (apply frames_bind; [frame|]; intros ?).
  apply frames_bind; [apply frames_get_all_rows|]. intros; frame.
Qed.

Lemma frames_update_record E R item_id data u : frames f (update_record E R item_id data u).
Proof.
  unfold update_record. do 2 (apply frames_bind; [frame|]; intros ?).
  apply frames_bind; [apply frames_get_all_rows|]. intros rows.
  case_match; [|frame].
  do 2 (apply frames_bind; [frame|]; intros ?).
  apply frames_bind; [apply frames_update_row|]. intros; frame.
Qed.

Lemma frames_delete_record E R item_id u : frames f (delete_record E R item_id u).
Proof.
  unfold delete_record. do 2 (apply frames_bind; [frame|]; intros ?).
  apply frames_try; [apply frames_delete_row|].
  intros e k Hk. destruct e; simplify_eq. frame.
Qed.
End UsersFrame.

(** ** database.py: the upsert *)

Lemma save_or_update_user_lookup e n tok w e' cols :
  users w !! e' = Some cols →
  ∃ cols', users (save_or_update_user e n tok w).2 !! e' = Some cols'
    ∧ spreadsheet_id cols' = spreadsheet_id cols
    ∧ (e' ≠ e → cols' = cols)
    ∧ (e' = e → ∀ n', n = Some n' → cols' = Columns n' tok (spreadsheet_id cols)).
Proof.
  intros Hu. unfold save_or_update_user. unfold_handler.
  destruct (decide (e' = e)) as [->|Hne].
  - rewrite Hu. destruct n as [n'|]; simpl.
    + rewrite lookup_insert_eq. eexists. split_and!; [done..|].
      by intros _ ? [= ->].
    + exists cols. by split_and!.
  - exists cols.
    destruct (users w !! e) as [c|], n as [n'|]; simpl;
      rewrite ?lookup_insert_ne by done; by split_and!.
Qed.

Lemma save_or_update_user_new e n' tok w :
  users w !! e = None →
  users (save_or_update_user e (Some n') tok w).2 !! e = Some (Columns n' tok SqlNull).
Proof.
  intros Hu. unfold save_or_update_user. unfold_handler.
  rewrite Hu; simpl. by rewrite lookup_insert_eq.
Qed.

Lemma auth_callback_keeps_spreadsheet_id E st exchange w e' cols :
  users w !! e' = Some cols →
  spreadsheet_id <$> users (auth_callback E st exchange w).2 !! e'
  = Some (spreadsheet_id cols).
Proof.
  intros Hu. unfold auth_callback. unfold_handler.
  destruct (negb (str_truthy (session_storage w !! "state"))
            || negb (bool_decide (session_storage w !! "state" = st))); simpl;
    [by rewrite Hu|].
  destruct exchange as [g|]; simpl; [|by rewrite Hu].
  destruct (negb (str_truthy (grant_email g))
            || negb (str_truthy (grant_refresh_token g))); simpl; [by rewrite Hu|].
  set (w1 := set_session_storage (delete "state" (session_storage w)) w).
  destruct (save_or_update_user_lookup (default "" (grant_email g)) (grant_name g)
              (encrypt_token E (default "" (grant_refresh_token g))) w1 e' cols Hu)
    as (cols' & Hl & Hsid & _).
  destruct (save_or_update_user _ _ _ w1) as [[e|[]] w2] eqn:Hs; simpl in *;
    by rewrite Hl, <- Hsid.
Qed.

Lemma setup_sheet_other_users E u w e' :
  e' ≠ email u → users (setup_sheet E u w).2 !! e' = users w !! e'.
Proof.
  intros Hne. unfold setup_sheet, get_user_by_email.
  unfold bind at 1. unfold gets; simpl.
  destruct (users w !! email u) as [cols|]; simpl; [|done].
  destruct (sql_truthy (spreadsheet_id cols)); [done|].
  apply (frames_try (λ w, users w !! e'));
    [|intros; simplify_eq; apply frames_raise].
  apply frames_bind; [apply frames_lift|]. intros creds.
  apply frames_bind; [by apply frames_create_spreadsheet|]. intros sid.
  apply frames_bind.
  - intros w0. unfold update_spreadsheet_id, modify; simpl.
    by rewrite lookup_alter_ne.
  - intros _. apply frames_bind; [by apply frames_setup_erp_sheets|].
    intros. apply frames_ret.
Qed.

Lemma setup_sheet_already_set_up E u w cols :
  users w !! email u = Some cols →
  sql_truthy (spreadsheet_id cols) = true →
  setup_sheet E u w
  = (inr (SetupReply "Spreadsheet already set up." (spreadsheet_id cols) None), w).
Proof.
  intros Hu Hset. unfold setup_sheet, get_user_by_email. unfold_handler.
  rewrite Hu; simpl. by rewrite Hset.
Qed.

(** C9.  For every stored user record: the upsert of the login keeps its
    container identifier, changes nothing else than the display name
    and the encrypted credential of the record it is called for, and
    leaves every other record alone; the whole login callback keeps the
    identifier; the four CRUD handlers do not write to the directory;
    and provisioning touches the identifier of no other user and of no
    user who already has one. *)
Theorem spreadsheet_id_survives_login E e n tok st exchange R inst item_id data u w e' cols :
  users w !! e' = Some cols →
  (∃ cols', users (save_or_update_user e n tok w).2 !! e' = Some cols'
     ∧ spreadsheet_id cols' = spreadsheet_id cols
     ∧ (e' ≠ e → cols' = cols)
     ∧ (e' = e → ∀ n', n = Some n' → cols' = Columns n' tok (spreadsheet_id cols)))
  ∧ spreadsheet_id <$> users (auth_callback E st exchange w).2 !! e'
    = Some (spreadsheet_id cols)
  ∧ users (add_record E R inst u w).2 = users w
  ∧ users (get_records E R u w).2 = users w
  ∧ users (update_record E R item_id data u w).2 = users w
  ∧ users (delete_record E R item_id u w).2 = users w
  ∧ (e' ≠ email u ∨ sql_truthy (spreadsheet_id cols) = true →
     users (setup_sheet E u w).2 !! e' = Some cols).
Proof.
  intros Hu. split_and!.
  - by apply save_or_update_user_lookup.
  - by apply auth_callback_keeps_spreadsheet_id.
  - by apply (frames_add_record users).
  - by apply (frames_get_records users).
  - by apply (frames_update_record users).
  - by apply (frames_delete_record users).
  - intros Hcase. destruct (decide (e' = email u)) as [->|Hne].
    + destruct Hcase as [?|Hset]; [done|].
      by rewrite (setup_sheet_already_set_up E u w cols Hu Hset).
    + by rewrite setup_sheet_other_users.
Qed.

Lemma spreadsheet_id_survives_login_witness :
  users (save_or_update_user "alice@example.org" (Some "Alice R.") "gAAAAAnew" world1).2
    !! "alice@example.org"
  = Some (Columns "Alice R." "gAAAAAnew" (spreadsheet_id alice1)).
Proof.
  destruct (spreadsheet_id_survives_login test_env "alice@example.org" (Some "Alice R.")
              "gAAAAAnew" None None app_users bob "USR-000001" (Payload ∅ ∅) alice1 world1
              "alice@example.org" (columns alice1))
    as ((cols' & Hl & _ & _ & Hnew) & _).
  - vm_compute. reflexivity.
  - rewrite Hl. f_equal. exact (Hnew eq_refl "Alice R." eq_refl).
Defined.

(** ** main.py: provisioning *)

(** [setup_sheet] for a user without an identifier, step by step. *)
Lemma setup_sheet_run E u cols w :
  users w !! email u = Some cols →
  sql_truthy (spreadsheet_id cols) = false →
  setup_sheet E u w =
    match get_google_credentials E (UserRow (email u) cols) with
    | inl e => (inl (setup_failed e), w)
    | inr creds =>
        if reachable E (length (calls w)) then
          let sid := new_spreadsheet_id E (length (calls w)) in
          match setup_erp_sheets E creds sid (after_recording E (email u) w) with
          | (inr _, w') =>
              (inr (SetupReply "Successfully created and set up ERP spreadsheet!"
                      (SqlText sid)
                      (Some ("https://docs.google.com/spreadsheets/d/" +:+ sid))), w')
          | (inl e, w') => (inl (setup_failed e), w')
          end
        else
          (inl (setup_failed HttpError),
           log_call (SpreadsheetsCreate ("ERP Data - " +:+ email u)) w)
    end.
Proof.
  intros Hu Hset. unfold setup_sheet, get_user_by_email.
  unfold bind at 1. unfold gets; simpl. rewrite Hu; simpl. rewrite Hset.
  unfold try_except, bind at 1, lift.
  destruct (get_google_credentials E (UserRow (email u) cols)) as [e|creds]; [done|].
  unfold bind at 1, create_spreadsheet, bind at 1, execute; simpl.
  destruct (reachable E (length (calls w))); simpl; [|done].
  unfold bind at 1, update_spreadsheet_id, modify; simpl.
  unfold bind at 1. unfold after_recording, setup_failed, ret, raise; simpl.
  by destruct (setup_erp_sheets E creds _ _) as [[e|[]] w'].
Qed.

Lemma after_recording_user E e w cols :
  users w !! e = Some cols →
  users (after_recording E e w) !! e
  = Some (Columns (name cols) (encrypted_refresh_token cols)
            (SqlText (new_spreadsheet_id E (length (calls w))))).
Proof. intros Hu. unfold after_recording; simpl. by rewrite lookup_alter_eq, Hu. Qed.

Lemma after_recording_calls E e w :
  calls (after_recording E e w)
  = (calls w ++ [SpreadsheetsCreate ("ERP Data - " +:+ e)])%list.
Proof. done. Qed.

Lemma after_recording_doc E e w :
  docs (after_recording E e w) !! new_spreadsheet_id E (length (calls w))
  = Some [Sheet 0 "Sheet1" []].
Proof. unfold after_recording; simpl. by rewrite lookup_insert_eq. Qed.

(** A remote call removes no document and forgets no earlier call. *)
Lemma execute_keeps_documents E c w k :
  is_Some (docs w !! k) → is_Some (docs (execute E c w).2 !! k).
Proof.
  intros Hk. unfold execute.
  destruct (reachable E (length (calls w))); simpl; [|done].
  destruct (serve E (length (calls w)) c (docs w)) as [[a d]|] eqn:Hserve; simpl; [|done].
  destruct c; simpl in Hserve;
    repeat (match type of Hserve with
            | context [?o ≫= _] => destruct o eqn:?; simpl in Hserve
            end);
    simplify_eq; try done; apply lookup_insert_is_Some'; by right.
Qed.

Lemma execute_calls E c w : calls (execute E c w).2 = (calls w ++ [c])%list.
Proof.
  unfold execute. destruct (reachable E (length (calls w))); simpl; [|done].
  by destruct (serve E (length (calls w)) c (docs w)) as [[a d]|].
Qed.

Lemma setup_erp_sheets_keeps_documents E creds sid w k :
  is_Some (docs w !! k) → is_Some (docs (setup_erp_sheets E creds sid w).2 !! k).
Proof.
  intros Hk. unfold setup_erp_sheets.
  unfold bind at 1.
  pose proof (execute_keeps_documents E
    (SpreadsheetsBatchUpdate sid
       (map (λ kv, AddSheet kv.1) SHEET_STRUCTURE ++ [DeleteSheet 0])%list) w k Hk) as H1.
  destruct (execute E _ w) as [[e|a] w1]; simpl in *; [done|].
  unfold bind.
  pose proof (execute_keeps_documents E
    (ValuesBatchUpdate sid (map (λ kv, (kv.1, kv.2)) SHEET_STRUCTURE)) w1 k H1) as H2.
  by destruct (execute E _ w1) as [[e|a'] w2].
Qed.

Lemma setup_erp_sheets_calls E creds sid w :
  ∃ later, calls (setup_erp_sheets E creds sid w).2 = (calls w ++ later)%list
    ∧ ∀ c, c ∈ later →
        c = SpreadsheetsBatchUpdate sid
              (map (λ kv, AddSheet kv.1) SHEET_STRUCTURE ++ [DeleteSheet 0])%list
        ∨ c = ValuesBatchUpdate sid (map (λ kv, (kv.1, kv.2)) SHEET_STRUCTURE).
Proof.
  unfold setup_erp_sheets. unfold bind at 1.
  pose proof (execute_calls E
    (SpreadsheetsBatchUpdate sid
       (map (λ kv, AddSheet kv.1) SHEET_STRUCTURE ++ [DeleteSheet 0])%list) w) as H1.
  destruct (execute E _ w) as [[e|a] w1]; simpl in *.
  - eexists; split; [exact H1|]. intros c Hc%list_elem_of_singleton. by left.
  - unfold bind.
    pose proof (execute_calls E
      (ValuesBatchUpdate sid (map (λ kv, (kv.1, kv.2)) SHEET_STRUCTURE)) w1) as H2.
    destruct (execute E _ w1) as [[e|a'] w2]; simpl in *;
      rewrite H2, H1, <- app_assoc;
      (eexists; split; [done|]);
      intros c [->|[->|[]%elem_of_nil]%elem_of_cons]%elem_of_cons; auto.
Qed.

(** C6.  When the creation call is answered, the handler continues as
    the header set-up started from [after_recording]: a world in which
    the only call issued so far is the creation and the new identifier
    is already in the user's row.  Whatever the header set-up does
    next, when it has returned or raised the user's row holds the
    identifier and the new document exists; the calls that follow the
    creation are the two of the header set-up; and when the service is
    down for the first of them the handler fails with status 500 and
    the identifier stays recorded. *)
Theorem identifier_recorded_before_headers E u cols creds w :
  users w !! email u = Some cols →
  sql_truthy (spreadsheet_id cols) = false →
  get_google_credentials E (UserRow (email u) cols) = inr creds →
  reachable E (length (calls w)) = true →
  let sid := new_spreadsheet_id E (length (calls w)) in
  let start := after_recording E (email u) w in
  spreadsheet_id <$> users start !! email u = Some (SqlText sid)
  ∧ calls start = (calls w ++ [SpreadsheetsCreate ("ERP Data - " +:+ email u)])%list
  ∧ (setup_sheet E u w).2 = (setup_erp_sheets E creds sid start).2
  ∧ spreadsheet_id <$> users (setup_sheet E u w).2 !! email u = Some (SqlText sid)
  ∧ is_Some (docs (setup_sheet E u w).2 !! sid)
  ∧ (∃ later,
       calls (setup_sheet E u w).2
       = (calls w ++ SpreadsheetsCreate ("ERP Data - " +:+ email u) :: later)%list
       ∧ ∀ c, c ∈ later →
           c = SpreadsheetsBatchUpdate sid
                 (map (λ kv, AddSheet kv.1) SHEET_STRUCTURE ++ [DeleteSheet 0])%list
           ∨ c = ValuesBatchUpdate sid (map (λ kv, (kv.1, kv.2)) SHEET_STRUCTURE))
  ∧ (reachable E (S (length (calls w))) = false →
     (setup_sheet E u w).1 = inl (setup_failed HttpError)).
Proof.
  intros Hu Hset Hcreds Hup sid start.
  assert ((setup_sheet E u w).2 = (setup_erp_sheets E creds sid start).2) as Hfinal.
  { rewrite (setup_sheet_run E u cols w Hu Hset), Hcreds, Hup. simpl.
    fold sid start. by destruct (setup_erp_sheets E creds sid start) as [[e|[]] w']. }
  assert (spreadsheet_id <$> users start !! email u = Some (SqlText sid)) as Hstart.
  { unfold start. by rewrite (after_recording_user E (email u) w cols Hu). }
  split_and!.
  - done.
  - done.
  - done.
  - rewrite Hfinal.
    by rewrite (frames_setup_erp_sheets (λ w, users w !! email u)).
  - rewrite Hfinal. apply setup_erp_sheets_keeps_documents.
    unfold start, sid. by rewrite after_recording_doc.
  - rewrite Hfinal.
    destruct (setup_erp_sheets_calls E creds sid start) as (later & Hcalls & Hlater).
    exists later. split; [|done].
    rewrite Hcalls. unfold start. rewrite after_recording_calls.
    by rewrite <- app_assoc.
  - intros Hdown.
    rewrite (setup_sheet_run E u cols w Hu Hset), Hcreds, Hup. simpl.
    fold sid start. unfold setup_erp_sheets, bind at 1, execute.
    replace (length (calls start)) with (S (length (calls w)))
      by (unfold start; rewrite after_recording_calls, length_app; simpl; lia).
    by rewrite Hdown.
Qed.

Lemma identifier_recorded_before_headers_witness :
  (setup_sheet env_down_after_first_call alice world0).1 = inl (setup_failed HttpError)
  ∧ spreadsheet_id <$> users (setup_sheet env_down_after_first_call alice world0).2
                         !! "alice@example.org"
    = Some (SqlText "1BxiMVs0XRA5nFMdKvBdBZjgmUUqptlbs74OgvE2upm0").
Proof.
  destruct (identifier_recorded_before_headers env_down_after_first_call alice
              (columns alice) (Credentials "refresh") world0)
    as (_ & _ & _ & Hid & _ & _ & Hfail).
  - reflexivity.
  - reflexivity.
  - reflexivity.
  - reflexivity.
  - split; [exact (Hfail eq_refl) | exact Hid].
Defined.

(** C5.  When provisioning has returned an identifier, provisioning again
    (under any environment) returns the same identifier, issues no call
    to the remote service, container creation included, and changes
    nothing.  The service is taken never to hand out an empty
    identifier. *)
Theorem setup_sheet_idempotent E E' u w r1 w1 :
  (∀ n, new_spreadsheet_id E n ≠ "") →
  setup_sheet E u w = (inr r1, w1) →
  ∃ r2, setup_sheet E' u w1 = (inr r2, w1)
    ∧ reply_spreadsheet_id r2 = reply_spreadsheet_id r1
    ∧ calls (setup_sheet E' u w1).2 = calls w1
    ∧ (∀ t, SpreadsheetsCreate t ∉ drop (length (calls w1)) (calls (setup_sheet E' u w1).2)).
Proof.
  intros Hfresh Hrun.
  assert (∃ cols1, users w1 !! email u = Some cols1
                   ∧ sql_truthy (spreadsheet_id cols1) = true
                   ∧ reply_spreadsheet_id r1 = spreadsheet_id cols1) as (cols1 & Hu1 & Hset1 & Hr1).
  { destruct (users w !! email u) as [cols|] eqn:Hu.
    2:{ unfold setup_sheet, get_user_by_email in Hrun. unfold_handler.
        by rewrite Hu in Hrun. }
    destruct (sql_truthy (spreadsheet_id cols)) eqn:Hset.
    - rewrite (setup_sheet_already_set_up E u w cols Hu Hset) in Hrun.
      injection Hrun as <- <-. by exists cols.
    - rewrite (setup_sheet_run E u cols w Hu Hset) in Hrun.
      destruct (get_google_credentials E (UserRow (email u) cols)) as [e|creds]; [done|].
      destruct (reachable E (length (calls w))); [|done]. simpl in Hrun.
      pose proof (frames_setup_erp_sheets (λ w, users w !! email u)
                    (λ _ _, eq_refl) (λ _ _, eq_refl) E creds
                    (new_spreadsheet_id E (length (calls w)))
                    (after_recording E (email u) w)) as Hframe.
      cbv beta in Hframe.
      rewrite (after_recording_user E (email u) w cols Hu) in Hframe.
      destruct (setup_erp_sheets E creds _ (after_recording E (email u) w))
        as [[e|[]] w'] eqn:Hsetup; [done|].
      injection Hrun as <- <-. simpl in Hframe.
      eexists. split; [exact Hframe|]. split; [|done]. simpl.
      specialize (Hfresh (length (calls w))).
      by destruct (new_spreadsheet_id E (length (calls w))). }
  rewrite (setup_sheet_already_set_up E' u w1 cols1 Hu1 Hset1). simpl.
  eexists. split_and!; [done | done | done |].
  intros t. rewrite drop_all. apply not_elem_of_nil.
Qed.

Lemma setup_sheet_idempotent_witness :
  ∃ r2, setup_sheet test_env alice world1 = (inr r2, world1)
    ∧ reply_spreadsheet_id r2 = SqlText "1BxiMVs0XRA5nFMdKvBdBZjgmUUqptlbs74OgvE2upm0"
    ∧ calls (setup_sheet test_env alice world1).2 = calls world1.
Proof.
  destruct (setup_sheet_idempotent test_env test_env alice world0
              (SetupReply "Successfully created and set up ERP spreadsheet!"
                 (SqlText "1BxiMVs0XRA5nFMdKvBdBZjgmUUqptlbs74OgvE2upm0")
                 (Some "https://docs.google.com/spreadsheets/d/1BxiMVs0XRA5nFMdKvBdBZjgmUUqptlbs74OgvE2upm0"))
              world1)
    as (r2 & Hrun & Hid & Hcalls & _).
  - intros n. simpl. discriminate.
  - vm_compute. reflexivity.
  - exists r2. split; [exact Hrun|]. split; [exact Hid | exact Hcalls].
Defined.

(** ** sheets_api.py: the row search *)

Lemma list_index_lookup x l c : list_index x l = Some c → l !! c = Some x.
Proof.
  revert c. induction l as [|y l IH]; intros c; simpl; [done|].
  destruct (decide (y = x)) as [->|Hne].
  - by intros [= <-].
  - destruct (list_index x l) as [c'|]; simpl; [|done].
    intros [= <-]. by apply IH.
Qed.

Lemma list_index_elem_of x l : x ∈ l → ∃ c, list_index x l = Some c.
Proof.
  induction l as [|y l IH]; [by intros ?%elem_of_nil|].
  intros Hin. simpl. destruct (decide (y = x)) as [->|Hne]; [by eexists|].
  apply elem_of_cons in Hin as [->|Hin]; [done|].
  destruct (IH Hin) as [c ->]. by eexists.
Qed.

(** The test of the loop is the test of one cell. *)
Lemma scan_test col (v : string) (row : list string) :
  (col <? length row)%nat && bool_decide (row !! col = Some v)
  = bool_decide (row !! col = Some v).
Proof.
  destruct (bool_decide (row !! col = Some v)) eqn:Hc; [|apply andb_false_r].
  apply bool_decide_eq_true in Hc. apply lookup_lt_Some in Hc.
  apply Nat.ltb_lt in Hc. by rewrite Hc.
Qed.

Lemma scan_rows_None col v rows i :
  scan_rows col v rows i = None ↔ ∀ row, row ∈ rows → row !! col ≠ Some v.
Proof.
  revert i. induction rows as [|row rows IH]; intros i; simpl.
  - split; [by intros _ ? ?%elem_of_nil | done].
  - rewrite scan_test. destruct (decide (row !! col = Some v)) as [Hc|Hc].
    + rewrite bool_decide_eq_true_2 by done. split; [done|].
      intros Hall. exfalso. apply (Hall row); [apply list_elem_of_here | done].
    + rewrite bool_decide_eq_false_2 by done. rewrite IH. split.
      * intros Hall r [->|Hr]%elem_of_cons; auto.
      * intros Hall r Hr. apply Hall. by apply list_elem_of_further.
Qed.

(** The search returns one more than the 0-based position of the first
    row, counted from the row at position 0, whose cell matches. *)
Lemma scan_rows_Some col v rows i j :
  scan_rows col v rows i = Some j ↔
  ∃ k row, j = (i + k + 1)%nat ∧ rows !! k = Some row ∧ row !! col = Some v
    ∧ ∀ k' row', (k' < k)%nat → rows !! k' = Some row' → row' !! col ≠ Some v.
Proof.
  revert i. induction rows as [|row rows IH]; intros i; simpl.
  - split; [done | by intros (k & r & _ & ? & _)].
  - rewrite scan_test. destruct (decide (row !! col = Some v)) as [Hc|Hc].
    + rewrite bool_decide_eq_true_2 by done. split.
      * intros [= <-]. exists 0%nat, row. split_and!; [lia | done | done | lia].
      * intros (k & r & -> & Hk & Hr & Hfirst).
        destruct k as [|k]; [f_equal; lia|].
        exfalso. by apply (Hfirst 0%nat row); [lia | |].
    + rewrite bool_decide_eq_false_2 by done. rewrite IH. split.
      * intros (k & r & -> & Hk & Hr & Hfirst).
        exists (S k), r. split_and!; [lia | done | done |].
        intros [|k'] r' Hlt Hk'; simpl in Hk'; [by injection Hk' as <- |].
        apply (Hfirst k' r'); [lia | done].
      * intros (k & r & -> & Hk & Hr & Hfirst).
        destruct k as [|k]; simpl in Hk; [by injection Hk as <- |].
        exists k, r. split_and!; [lia | done | done |].
        intros k' r' Hlt Hk'. apply (Hfirst (S k') r'); [lia | done].
Qed.

Lemma find_in_values_Some t v col vals i :
  find_in_values t v col vals = inr i ↔
  ∃ headers rest c k row,
    vals = headers :: rest ∧ list_index col headers = Some c ∧ i = S k
    ∧ vals !! k = Some row ∧ row !! c = Some v
    ∧ ∀ k' row', (k' < k)%nat → vals !! k' = Some row' → row' !! c ≠ Some v.
Proof.
  unfold find_in_values. destruct vals as [|headers rest].
  { split; [done | by intros (? & ? & ? & ? & ? & ? & _)]. }
  destruct (list_index col headers) as [c|] eqn:Hc.
  2:{ split; [done | by intros (? & ? & ? & ? & ? & [= <- <-] & ? & _); congruence]. }
  destruct (scan_rows c v (headers :: rest) 0) as [j|] eqn:Hscan.
  - apply scan_rows_Some in Hscan as (k & row & -> & Hk & Hrow & Hfirst). split.
    + intros [= <-]. exists headers, rest, c, k, row. split_and!; try done. lia.
    + intros (? & ? & c' & k' & row' & [= <- <-] & Hc' & -> & Hk' & Hrow' & Hfirst').
      assert (c' = c) as -> by congruence.
      f_equal. destruct (Nat.lt_trichotomy k k') as [Hlt|[->|Hlt]]; [|lia|].
      * exfalso. by apply (Hfirst' k row).
      * exfalso. by apply (Hfirst k' row').
  - split; [done|].
    intros (? & ? & c' & k & row & [= <- <-] & Hc' & -> & Hk & Hrow & _).
    assert (c' = c) as -> by congruence.
    exfalso. apply (proj1 (scan_rows_None c v (headers :: rest) 0) Hscan row); [|done].
    by eapply list_elem_of_lookup_2.
Qed.

(** No row holds [v] in the searched column: the search raises. *)
Lemma find_in_values_not_found t v col vals :
  (∀ headers rest c row,
     vals = headers :: rest → list_index col headers = Some c →
     row ∈ vals → row !! c ≠ Some v) →
  ∃ msg, find_in_values t v col vals = inl (ValueError msg).
Proof.
  intros Hno. unfold find_in_values.
  destruct vals as [|headers rest]; [by eexists|].
  destruct (list_index col headers) as [c|] eqn:Hc; [|by eexists].
  destruct (scan_rows c v (headers :: rest) 0) as [j|] eqn:Hscan; [|by eexists].
  apply scan_rows_Some in Hscan as (k & row & _ & Hk & Hrow & _).
  exfalso. apply (Hno headers rest c row eq_refl Hc); [|done].
  by eapply list_elem_of_lookup_2.
Qed.

(** Searching for the name of the column finds the header row. *)
Lemma find_in_values_header t col headers rest :
  col ∈ headers → find_in_values t col col (headers :: rest) = inr 1%nat.
Proof.
  intros Hin. unfold find_in_values.
  destruct (list_index_elem_of col headers Hin) as [c Hc]. rewrite Hc.
  simpl. rewrite scan_test.
  by rewrite bool_decide_eq_true_2 by (by apply list_index_lookup).
Qed.

(** ** The remote service, call by call *)

Lemma execute_answered E c w a d :
  reachable E (length (calls w)) = true →
  serve E (length (calls w)) c (docs w) = Some (a, d) →
  execute E c w = (inr a, set_docs d (log_call c w)).
Proof. intros Hup Hserve. unfold execute. rewrite Hup. simpl. by rewrite Hserve. Qed.

Lemma fetch_values_answered E sid t w ss sh :
  reachable E (length (calls w)) = true →
  docs w !! sid = Some ss → find_sheet t ss = Some sh →
  fetch_values E sid t w = (inr (values sh), log_call (ValuesGet sid t) w).
Proof.
  intros Hup Hdoc Hsh. unfold fetch_values, bind.
  rewrite (execute_answered E _ w (AValues (values sh)) (docs w) Hup).
  - by destruct w.
  - simpl. rewrite Hdoc. simpl. by rewrite Hsh.
Qed.

(** A change that keeps titles keeps which tab a title finds. *)
Lemma find_sheet_map t g ss :
  (∀ s, title (g s) = title s) →
  find_sheet t (map g ss) = g <$> find_sheet t ss.
Proof.
  intros Hg. unfold find_sheet. induction ss as [|s ss IH]; simpl; [done|].
  rewrite Hg. by destruct (bool_decide (title s = t)).
Qed.

Lemma find_sheet_title t ss sh : find_sheet t ss = Some sh → title sh = t.
Proof.
  unfold find_sheet. intros [_ Ht]%find_some. by apply bool_decide_eq_true in Ht.
Qed.

Lemma find_sheet_exists t ss sh :
  find_sheet t ss = Some sh → existsb (λ s, sheetId s =? sheetId sh) ss = true.
Proof.
  unfold find_sheet. intros [Hin _]%find_some.
  apply existsb_exists. exists sh. split; [done | apply Z.eqb_refl].
Qed.

Lemma delete_row_run E creds sid t v col w ss sh i :
  (∀ n, reachable E n = true) →
  docs w !! sid = Some ss → find_sheet t ss = Some sh →
  find_in_values t v col (values sh) = inr i →
  (0 < i)%nat →
  ∃ w', delete_row E creds sid t v col w = (inr tt, w')
    ∧ sheet_values sid t w'
      = Some (delete_rows (Z.of_nat i - 1) (Z.of_nat i) (values sh)).
Proof.
  intros Hup Hdoc Hsh Hfind Hi. eexists. split.
  - unfold delete_row.
    unfold bind at 1.
    rewrite (execute_answered E (SpreadsheetsGet sid) w (ASheets ss) (docs w) (Hup _))
      by (simpl; by rewrite Hdoc).
    rewrite Hsh. simpl.
    unfold bind at 1, find_row_index, bind at 1.
    rewrite (fetch_values_answered E sid t _ ss sh (Hup _)) by done.
    unfold lift. rewrite Hfind.
    unfold bind at 1. unfold execute. rewrite Hup. simpl. rewrite Hdoc. simpl.
    rewrite (find_sheet_exists t ss sh Hsh). simpl.
    replace (0 <=? Z.of_nat i - 1) with true by (symmetry; apply Z.leb_le; lia).
    replace (Z.of_nat i - 1 <? Z.of_nat i) with true by (symmetry; apply Z.ltb_lt; lia).
    simpl. reflexivity.
  - unfold sheet_values; simpl. rewrite lookup_insert_eq. simpl.
    rewrite find_sheet_map by (intros s; by destruct (sheetId s =? sheetId sh)).
    rewrite Hsh. simpl. by rewrite Z.eqb_refl.
Qed.

Lemma update_row_run E creds sid t v col new_values w ss sh i :
  (∀ n, reachable E n = true) →
  docs w !! sid = Some ss → find_sheet t ss = Some sh →
  find_in_values t v col (values sh) = inr i →
  ∃ w', update_row E creds sid t v col new_values w = (inr tt, w')
    ∧ sheet_values sid t w' = Some (write_row (i - 1) new_values (values sh)).
Proof.
  intros Hup Hdoc Hsh Hfind. eexists. split.
  - unfold update_row.
    unfold bind at 1, find_row_index, bind at 1.
    rewrite (fetch_values_answered E sid t _ ss sh (Hup _)) by done.
    unfold lift. rewrite Hfind.
    unfold bind at 1. unfold execute. rewrite Hup. simpl. rewrite Hdoc. simpl.
    unfold on_sheet. rewrite Hsh. simpl. reflexivity.
  - unfold sheet_values; simpl. rewrite lookup_insert_eq. simpl.
    rewrite find_sheet_map by (intros s; by destruct (bool_decide (title s = t))).
    rewrite Hsh. simpl.
    by rewrite bool_decide_eq_true_2 by (by eapply find_sheet_title).
Qed.

(** C10.  The row search returns one more than the position of the
    first row, the header row at position 0 included, whose cell in the
    searched column is the searched value.  Searching for the name of
    the identifier column therefore returns 1; the adapter's delete then
    removes the header row and its update overwrites it. *)
Theorem row_search_includes_header E creds sid t col new_values w ss sh headers rest :
  (∀ n, reachable E n = true) →
  docs w !! sid = Some ss →
  find_sheet t ss = Some sh →
  values sh = headers :: rest →
  col ∈ headers →
  (∀ v i,
     find_in_values t v col (values sh) = inr i ↔
     ∃ c k row,
       list_index col headers = Some c ∧ i = S k
       ∧ values sh !! k = Some row ∧ row !! c = Some v
       ∧ ∀ k' row', (k' < k)%nat → values sh !! k' = Some row' → row' !! c ≠ Some v)
  ∧ find_in_values t col col (values sh) = inr 1%nat
  ∧ (delete_row E creds sid t col col w).1 = inr tt
  ∧ sheet_values sid t (delete_row E creds sid t col col w).2 = Some rest
  ∧ (update_row E creds sid t col col new_values w).1 = inr tt
  ∧ sheet_values sid t (update_row E creds sid t col col new_values w).2
    = Some (overlay new_values headers :: rest).
Proof.
  intros Hup Hdoc Hsh Hvals Hcol.
  assert (find_in_values t col col (values sh) = inr 1%nat) as Hone
    by (rewrite Hvals; by apply find_in_values_header).
  split_and!.
  - intros v i. rewrite find_in_values_Some, Hvals. split.
    + intros (hs & tl & c & k & row & [= <- <-] & Hrest). by exists c, k, row.
    + intros (c & k & row & Hrest). by exists headers, rest, c, k, row.
  - done.
  - destruct (delete_row_run E creds sid t col col w ss sh 1 Hup Hdoc Hsh Hone)
      as (w' & -> & _); [lia | done].
  - destruct (delete_row_run E creds sid t col col w ss sh 1 Hup Hdoc Hsh Hone)
      as (w' & -> & Hafter); [lia|].
    simpl. by rewrite Hafter, Hvals.
  - by destruct (update_row_run E creds sid t col col new_values w ss sh 1 Hup Hdoc Hsh Hone)
      as (w' & -> & _).
  - destruct (update_row_run E creds sid t col col new_values w ss sh 1 Hup Hdoc Hsh Hone)
      as (w' & -> & Hafter).
    simpl. rewrite Hafter, Hvals. unfold write_row; simpl.
    by rewrite ?Nat.sub_0_r, ?app_nil_r.
Qed.

Lemma row_search_includes_header_witness :
  sheet_values "1BxiMVs0XRA5nFMdKvBdBZjgmUUqptlbs74OgvE2upm0" "Users"
    (delete_row test_env (Credentials "refresh")
       "1BxiMVs0XRA5nFMdKvBdBZjgmUUqptlbs74OgvE2upm0" "Users" "User ID" "User ID" world2).2
  = Some [["USR-000001"; "bob"; "pw"; "admin"]].
Proof.
  destruct (row_search_includes_header test_env (Credentials "refresh")
              "1BxiMVs0XRA5nFMdKvBdBZjgmUUqptlbs74OgvE2upm0" "Users" "User ID" []
              world2
              (default [] (docs world2 !! "1BxiMVs0XRA5nFMdKvBdBZjgmUUqptlbs74OgvE2upm0"))
              (Sheet 5 "Users" [["User ID"; "Username"; "Password"; "Role"];
                                ["USR-000001"; "bob"; "pw"; "admin"]])
              ["User ID"; "Username"; "Password"; "Role"]
              [["USR-000001"; "bob"; "pw"; "admin"]])
    as (_ & _ & _ & Hdel & _).
  - intros n. reflexivity.
  - vm_compute. reflexivity.
  - vm_compute. reflexivity.
  - reflexivity.
  - apply list_elem_of_here.
  - exact Hdel.
Defined.

(** ** main.py: delete *)

(** C4.  For a provisioned caller whose credential resolves and whose
    document the service serves: when no row of the sub-table (if the
    sub-table exists at all) holds [item_id] in the identifier column,
    delete fails with status 404, the documents and the directory are
    as before, and the only calls issued are the two reads. *)
Theorem delete_missing_record_not_found E R item_id u sid creds ss w :
  get_spreadsheet_id u w = (inr sid, w) →
  get_google_credentials E u = inr creds →
  (∀ n, reachable E n = true) →
  docs w !! sid = Some ss →
  (∀ sh headers rest c row,
     find_sheet (sheet_name R) ss = Some sh → values sh = headers :: rest →
     list_index (id_field R) headers = Some c →
     row ∈ values sh → row !! c ≠ Some item_id) →
  ∃ msg w',
    delete_record E R item_id u w = (inl (HTTPException 404 msg), w')
    ∧ docs w' = docs w
    ∧ users w' = users w
    ∧ ∃ reads, calls w' = (calls w ++ reads)%list
        ∧ ∀ c, c ∈ reads → c = SpreadsheetsGet sid ∨ c = ValuesGet sid (sheet_name R).
Proof.
  intros Hsid Hcreds Hup Hdoc Hno.
  unfold delete_record. unfold bind at 1. rewrite Hsid.
  unfold bind at 1, lift. rewrite Hcreds.
  unfold try_except, delete_row. unfold bind at 1.
  rewrite (execute_answered E (SpreadsheetsGet sid) w (ASheets ss) (docs w) (Hup _))
    by (simpl; by rewrite Hdoc).
  destruct (find_sheet (sheet_name R) ss) as [sh|] eqn:Hsh; simpl.
  - unfold bind at 1, find_row_index, bind at 1.
    rewrite (fetch_values_answered E sid (sheet_name R) _ ss sh (Hup _)) by done.
    unfold lift.
    destruct (find_in_values_not_found (sheet_name R) item_id (id_field R) (values sh))
      as [msg Hmsg].
    { intros headers rest c row Hvals Hc Hrow. by eapply Hno. }
    rewrite Hmsg. simpl.
    exists msg. eexists. split; [reflexivity|]. simpl. split_and!; [done..|].
    exists [SpreadsheetsGet sid; ValuesGet sid (sheet_name R)].
    split; [by rewrite <- app_assoc|].
    intros c [->|[->|[]%elem_of_nil]%elem_of_cons]%elem_of_cons; auto.
  - eexists. eexists. split; [reflexivity|]. simpl. split_and!; [done..|].
    exists [SpreadsheetsGet sid]. split; [done|].
    intros c ->%list_elem_of_singleton. by left.
Qed.

Lemma delete_missing_record_not_found_witness :
  ∃ msg w',
    delete_record test_env app_users "USR-FFFFFF" alice1 world2
    = (inl (HTTPException 404 msg), w')
    ∧ docs w' = docs world2.
Proof.
  destruct (delete_missing_record_not_found test_env app_users "USR-FFFFFF" alice1
              "1BxiMVs0XRA5nFMdKvBdBZjgmUUqptlbs74OgvE2upm0" (Credentials "refresh")
              (default [] (docs world2 !! "1BxiMVs0XRA5nFMdKvBdBZjgmUUqptlbs74OgvE2upm0"))
              world2)
    as (msg & w' & Hrun & Hdocs & _).
  - vm_compute. reflexivity.
  - reflexivity.
  - intros n. reflexivity.
  - vm_compute. reflexivity.
  - intros sh headers rest c row Hsh Hvals Hc Hrow.
    vm_compute in Hsh. injection Hsh as <-.
    simpl in Hvals. injection Hvals as <- <-.
    vm_compute in Hc. injection Hc as <-.
    simpl in Hrow.
    apply elem_of_cons in Hrow as [->|Hrow]; [discriminate|].
    apply elem_of_cons in Hrow as [->|Hrow]; [discriminate|].
    by apply elem_of_nil in Hrow.
  - exists msg, w'. split; [exact Hrun | exact Hdocs].
Defined.

(** ** main.py: update *)

Lemma model_copy_lookup existing data f :
  model_copy existing (model_dump_exclude_unset data) !! f
  = if decide (f ∈ model_fields_set data)
    then match attributes data !! f with
         | Some v => Some v
         | None => existing !! f
         end
    else existing !! f.
Proof.
  unfold model_copy, model_dump_exclude_unset.
  rewrite lookup_union.
  destruct (filter (λ kv, kv.1 ∈ model_fields_set data) (attributes data) !! f)
    as [v|] eqn:Hf.
  - apply map_lookup_filter_Some in Hf as [Hv Hin]. simpl in Hin.
    rewrite decide_True by done. rewrite Hv.
    by destruct (existing !! f).
  - apply map_lookup_filter_None in Hf.
    destruct (decide (f ∈ model_fields_set data)) as [Hin|Hnin].
    + destruct (attributes data !! f) as [v|] eqn:Hv.
      * destruct Hf as [?|Hf]; [done|]. exfalso. by apply (Hf v).
      * by destruct (existing !! f).
    + by destruct (existing !! f).
Qed.

Lemma model_copy_unset existing data :
  model_fields_set data = ∅ →
  model_copy existing (model_dump_exclude_unset data) = existing.
Proof.
  intros Hempty. apply map_eq. intros f.
  rewrite model_copy_lookup, Hempty. by rewrite decide_False by set_solver.
Qed.

(** C3.  When update returns a record, that record is the existing one
    (the first fetched row whose identifier cell is [item_id], read
    through the mapper) with the fields that the payload sets written
    over it: a payload that sets nothing gives the existing record
    back, a field that the payload does not set keeps its value, a
    field that it sets takes the payload's value, and a payload that
    sets only [X] changes no field but [X]. *)
Theorem update_record_partial_patch E R item_id data u w r w' :
  update_record E R item_id data u w = (inr r, w') →
  ∃ sid creds rows row existing w1,
    get_spreadsheet_id u w = (inr sid, w)
    ∧ get_all_rows E creds sid (sheet_name R) w = (inr rows, w1)
    ∧ matching_row R item_id rows = Some row
    ∧ map_row_to_model E row (res_model R) = inr existing
    ∧ r = model_copy existing (model_dump_exclude_unset data)
    ∧ (model_fields_set data = ∅ → r = existing)
    ∧ (∀ f, f ∉ model_fields_set data → r !! f = existing !! f)
    ∧ (∀ f v, f ∈ model_fields_set data → attributes data !! f = Some v →
              r !! f = Some v)
    ∧ (∀ X, model_fields_set data = {[X]} → ∀ f, f ≠ X → r !! f = existing !! f).
Proof.
  intros Hrun. unfold update_record in Hrun.
  unfold bind at 1 in Hrun.
  pose proof (get_spreadsheet_id_state u w) as Hstate.
  destruct (get_spreadsheet_id u w) as [[e|sid] w0] eqn:Hsid; [done|].
  simpl in Hstate. subst w0.
  unfold bind at 1, lift in Hrun.
  destruct (get_google_credentials E u) as [e|creds]; [done|].
  unfold bind at 1 in Hrun.
  destruct (get_all_rows E creds sid (sheet_name R) w) as [[e|rows] w1] eqn:Hrows; [done|].
  destruct (matching_row R item_id rows) as [row|] eqn:Hrow; [|done].
  unfold bind at 1, lift in Hrun.
  destruct (map_row_to_model E row (res_model R)) as [e|existing] eqn:Hexisting; [done|].
  unfold bind at 1, lift in Hrun.
  destruct (map_model_to_row E _ (sheet_name R)) as [e|new_row_values]; [done|].
  unfold bind, ret in Hrun.
  destruct (update_row E creds sid (sheet_name R) item_id (id_field R) new_row_values w1)
    as [[e|[]] w2]; [done|].
  injection Hrun as <- <-.
  exists sid, creds, rows, row, existing, w1.
  split_and!; try done.
  - apply model_copy_unset.
  - intros f Hf. rewrite model_copy_lookup. by rewrite decide_False.
  - intros f v Hf Hv. rewrite model_copy_lookup. by rewrite decide_True, Hv.
  - intros X HX f Hf. rewrite model_copy_lookup, HX.
    by rewrite decide_False by set_solver.
Qed.

Lemma update_record_partial_patch_witness :
  ∃ existing,
    <["role" := VStr "teacher"]> bob
    = model_copy existing (model_dump_exclude_unset role_patch)
    ∧ (<["role" := VStr "teacher"]> bob : instance) !! "username" = existing !! "username".
Proof.
  destruct (update_record_partial_patch test_env app_users "USR-000001" role_patch
              alice1 world2 (<["role" := VStr "teacher"]> bob)
              (update_record test_env app_users "USR-000001" role_patch alice1 world2).2)
    as (sid & creds & rows & row & existing & w1 & _ & _ & _ & _ & Heq & _ & Hkeep & _).
  - vm_compute. reflexivity.
  - exists existing. split; [exact Heq|].
    apply Hkeep. unfold role_patch; simpl.
    intros Hin. apply elem_of_singleton in Hin. discriminate Hin.
Defined.

(** * Further properties of the code *)

(** ** security.py: issuing and verifying *)



(** [get_current_user] never changes the world and fails with status
    401 only: for a missing cookie; for a token signed with another key
    or algorithm, expired, without subject, or whose subject is no
    stored user.  When it returns a user, the token was signed with the
    key, has not expired, and names that user, who is stored. *)
Theorem get_current_user_rejects E cookie w :
  (get_current_user E cookie w).2 = w
  ∧ (∀ e, (get_current_user E cookie w).1 = inl e →
          e = HTTPException 401 "Not authenticated"
          ∨ e = HTTPException 401 "Could not validate credentials")
  ∧ (cookie = None → (get_current_user E cookie w).1 = inl not_authenticated)
  ∧ (∀ token, cookie = Some token →
       jwt_key token ≠ JWT_SECRET_KEY E
       ∨ jwt_algorithm token ≠ "HS256"
       ∨ (∃ t, dict_get "exp" (jwt_claims token) = Some (CTime t) ∧ t < utcnow E)
       ∨ dict_get "sub" (jwt_claims token) = None
       ∨ (∃ e, dict_get "sub" (jwt_claims token) = Some (CStr e) ∧ users w !! e = None) →
       (get_current_user E cookie w).1 = inl credentials_exception)
  ∧ (∀ u, (get_current_user E cookie w).1 = inr u →
       ∃ token, cookie = Some token
         ∧ jwt_key token = JWT_SECRET_KEY E
         ∧ dict_get "sub" (jwt_claims token) = Some (CStr (email u))
         ∧ users w !! email u = Some (columns u)
         ∧ ∀ t, dict_get "exp" (jwt_claims token) = Some (CTime t) → utcnow E ≤ t).
Proof.
  assert (∀ e, @inl exn user_row credentials_exception = inl e →
            e = HTTPException 401 "Not authenticated"
            ∨ e = HTTPException 401 "Could not validate credentials") as Hrefuse.
  { intros e [= <-]. by right. }
  unfold get_current_user, jwt_decode.
  destruct cookie as [token|]; simpl.
  2:{ split_and!; try done. intros e [= <-]. by left. }
  destruct (decide (jwt_key token = JWT_SECRET_KEY E)) as [Hkey|Hkey].
  2:{ rewrite bool_decide_eq_false_2 by done. simpl.
      split_and!; try done; apply Hrefuse. }
  rewrite bool_decide_eq_true_2 by done. simpl.
  destruct (decide (jwt_algorithm token = ALGORITHM)) as [Halg|Halg].
  2:{ rewrite bool_decide_eq_false_2 by done. simpl.
      split_and!; try done; apply Hrefuse. }
  rewrite bool_decide_eq_true_2 by done. simpl.
  assert (∀ t, dict_get "exp" (jwt_claims token) = Some (CTime t) →
               (t <? utcnow E) = false → utcnow E ≤ t) as Hexp_ok.
  { intros t _ Hge. by apply Z.ltb_ge in Hge. }
  destruct (dict_get "exp" (jwt_claims token)) as [[s|t]|] eqn:Hexp; simpl.
  - split_and!; try done; apply Hrefuse.
  - destruct (t <? utcnow E) eqn:Hlt; simpl.
    { split_and!; try done; apply Hrefuse. }
    pose proof (Hexp_ok t eq_refl Hlt) as Hge.
    destruct (dict_get "sub" (jwt_claims token)) as [[user_email|t']|] eqn:Hsub; simpl.
    + rewrite Hsub. unfold bind, get_user_by_email, gets, ret.
      destruct (users w !! user_email) as [cols|] eqn:Hu; simpl.
      * split_and!; try done.
        -- intros tok [= <-] Hcase.
           destruct Hcase as [?|[?|[(t0 & H1 & H2)|[?|(e0 & H1 & H2)]]]];
             simplify_eq; try done; lia.
        -- intros u [= <-]. exists token. split_and!; try done.
           intros t0 Ht0. by simplify_eq.
      * split_and!; try done; apply Hrefuse.
    + split_and!; try done; apply Hrefuse.
    + rewrite Hsub. split_and!; try done; apply Hrefuse.
  - destruct (dict_get "sub" (jwt_claims token)) as [[user_email|t']|] eqn:Hsub; simpl.
    + rewrite Hsub. unfold bind, get_user_by_email, gets, ret.
      destruct (users w !! user_email) as [cols|] eqn:Hu; simpl.
      * split_and!; try done.
        -- intros tok [= <-] Hcase.
           destruct Hcase as [?|[?|[(t0 & H1 & H2)|[?|(e0 & H1 & H2)]]]];
             simplify_eq; done.
        -- intros u [= <-]. exists token. split_and!; try done.
           intros t Ht. congruence.
      * split_and!; try done; apply Hrefuse.
    + split_and!; try done; apply Hrefuse.
    + rewrite Hsub. split_and!; try done; apply Hrefuse.
Qed.

(** ** main.py: the login flow *)

Lemma str_truthy_nonempty s : s ≠ "" → str_truthy (Some s) = true.
Proof. by destruct s. Qed.

(** Whatever the callback does, it has emptied the one-time slot; it
    never fails with another status than 500, the cause being wrapped
    into the detail (the 400 of a bad state included); a state that is
    not the stored one fails before the directory is touched; and any
    second callback fails on the state check. *)
Theorem auth_callback_failures E st exchange w :
  session_storage (auth_callback E st exchange w).2 !! "state" = None
  ∧ (∀ e, (auth_callback E st exchange w).1 = inl e →
          ∃ cause,
            e = HTTPExceptionFrom 500 "An unexpected error occurred during auth: " cause)
  ∧ (session_storage w !! "state" ≠ st ∨ str_truthy (session_storage w !! "state") = false →
     (auth_callback E st exchange w).1 = inl (auth_failed invalid_state)
     ∧ users (auth_callback E st exchange w).2 = users w)
  ∧ (∀ E2 st2 exchange2,
       (auth_callback E2 st2 exchange2 (auth_callback E st exchange w).2).1
       = inl (auth_failed invalid_state)).
Proof.
  assert (∀ E0 st0 ex0 w0,
            session_storage w0 !! "state" = None →
            (auth_callback E0 st0 ex0 w0).1 = inl (auth_failed invalid_state)) as Hreplay.
  { intros E0 st0 ex0 w0 Hnone. unfold auth_callback. unfold_handler.
    by rewrite Hnone. }
  assert (session_storage (auth_callback E st exchange w).2 !! "state" = None) as Hslot.
  { unfold auth_callback. unfold_handler.
    destruct (negb (str_truthy (session_storage w !! "state"))
              || negb (bool_decide (session_storage w !! "state" = st))); simpl;
      [apply lookup_delete_eq|].
    destruct exchange as [g|]; simpl; [|apply lookup_delete_eq].
    destruct (negb (str_truthy (grant_email g))
              || negb (str_truthy (grant_refresh_token g))); simpl;
      [apply lookup_delete_eq|].
    unfold save_or_update_user. unfold_handler.
    repeat case_match; simplify_eq; simpl; apply lookup_delete_eq. }
  split_and!.
  - done.
  - unfold auth_callback. unfold try_except.
    intros e He.
    match type of He with
    | context [match ?m w with _ => _ end] => destruct (m w) as [[e0|r] w1]
    end; simpl in He; [|done].
    exists e0. by injection He as <-.
  - intros Hbad. unfold auth_callback. unfold_handler.
    assert (negb (str_truthy (session_storage w !! "state"))
            || negb (bool_decide (session_storage w !! "state" = st)) = true) as ->.
    { destruct Hbad as [Hne|Hfalsy].
      - rewrite bool_decide_eq_false_2 by done. apply orb_true_r.
      - by rewrite Hfalsy. }
    done.
  - intros E2 st2 exchange2. by apply Hreplay.
Qed.

(** The state that [login_google] stores is accepted by the callback
    once: with a grant that carries an email, a refresh credential and a
    name, the callback returns the redirect to [/api/me] with the
    session cookie, the user's row holds the new name and the encrypted
    credential beside the identifier it had (none for a new user), and
    the slot is empty again. *)
Theorem login_then_callback E E' state g user_email rt n w :
  state ≠ "" →
  client_secrets_present E = true →
  grant_email g = Some user_email → user_email ≠ "" →
  grant_refresh_token g = Some rt → rt ≠ "" →
  grant_name g = Some n →
  (login_google E state w).1 = inr state
  ∧ ∃ w2,
      auth_callback E' (Some state) (Some g) (login_google E state w).2
      = (inr (Redirect "/api/me"
                (Some (create_access_token E' [("sub", CStr user_email)] None))), w2)
      ∧ users w2 !! user_email
        = Some (Columns n (encrypt_token E' rt)
                  (default SqlNull (spreadsheet_id <$> users w !! user_email)))
      ∧ (∀ e', e' ≠ user_email → users w2 !! e' = users w !! e')
      ∧ session_storage w2 !! "state" = None.
Proof.
  intros Hstate Hsecrets Hmail Hmail_ne Hrt Hrt_ne Hname.
  unfold login_google. unfold_handler. rewrite Hsecrets. simpl.
  split; [done|].
  unfold auth_callback. unfold_handler.
  rewrite lookup_insert_eq.
  rewrite (str_truthy_nonempty state Hstate).
  rewrite bool_decide_eq_true_2 by done. simpl.
  rewrite Hmail, Hrt.
  rewrite (str_truthy_nonempty user_email Hmail_ne), (str_truthy_nonempty rt Hrt_ne).
  simpl. unfold save_or_update_user. unfold_handler. rewrite Hname.
  destruct (users w !! user_email) as [cols|] eqn:Hu; simpl;
    (eexists; split; [reflexivity|]; simpl; split_and!;
      [ by rewrite lookup_insert_eq
      | by intros e' Hne; rewrite lookup_insert_ne
      | apply lookup_delete_eq ]).
Qed.

Lemma login_then_callback_witness :
  ∃ w2,
    auth_callback test_env (Some "st4te") (Some (OAuthGrant (Some "bob@x.org") (Some "Bob") (Some "rt")))
      (login_google test_env "st4te" world0).2
    = (inr (Redirect "/api/me"
              (Some (create_access_token test_env [("sub", CStr "bob@x.org")] None))), w2)
    ∧ users w2 !! "bob@x.org" = Some (Columns "Bob" "gAAAAArt" SqlNull).
Proof.
  destruct (login_then_callback test_env test_env "st4te"
              (OAuthGrant (Some "bob@x.org") (Some "Bob") (Some "rt"))
              "bob@x.org" "rt" "Bob" world0)
    as (_ & w2 & Hrun & Hrow & _).
  - discriminate.
  - reflexivity.
  - reflexivity.
  - discriminate.
  - reflexivity.
  - discriminate.
  - reflexivity.
  - exists w2. split; [exact Hrun | exact Hrow].
Defined.
